(** * The audit log service (auditLogService.js)

    A shallow embedding of the change-set audit engine, following the
    JavaScript source function by function.  Values are the JavaScript
    values the code handles, exceptions are values of [exn], and the
    effects on the storage collaborator are recorded in a trace that is
    threaded through a small state-and-error monad. *)

From stdpp Require Import gmap strings list fin_maps pretty.

Local Open Scope string_scope.
Local Open Scope list_scope.

(** ** JavaScript values *)

(** The primitives the service handles.  [SNum n] is a number holding
    the integer [n]; the model covers the integers that JavaScript
    writes in plain decimal (magnitude below 10^21), as primary keys
    and flags are. *)
Inductive scalar :=
| SUndefined
| SNull
| SBool (b : bool)
| SNum (n : Z)
| SStr (s : string).

Global Instance scalar_eq_dec : EqDecision scalar.
Proof. solve_decision. Defined.

(** [!!v] *)
Definition truthy (v : scalar) : bool :=
  match v with
  | SUndefined | SNull => false
  | SBool b => b
  | SNum n => negb (Z.eqb n 0)
  | SStr s => negb (String.eqb s "")
  end.

(** [Array.prototype.join] turns [undefined] and [null] into the empty
    string and every other element into its [ToString]. *)
Definition joinElement (v : scalar) : string :=
  match v with
  | SUndefined | SNull => ""
  | SBool true => "true"
  | SBool false => "false"
  | SNum n => pretty n
  | SStr s => s
  end.

(** [ToPropertyKey] on a scalar, as used by [DBModels[tableName]]. *)
Definition propertyKey (v : scalar) : string :=
  match v with
  | SUndefined => "undefined"
  | SNull => "null"
  | _ => joinElement v
  end.

(** ** Exceptions *)

Inductive exn :=
| DriveError (cls : string) (msg : string)   (* new <cls>(msg), a subclass of DriveError *)
| TypeError (msg : string)
| ReferenceError (ident : string)
| StorageError (code : nat).                 (* a rejection coming from the storage collaborator *)

Global Instance exn_eq_dec : EqDecision exn.
Proof. solve_decision. Defined.

Definition errorClass (e : exn) : string :=
  match e with
  | DriveError cls _ => cls
  | TypeError _ => "TypeError"
  | ReferenceError _ => "ReferenceError"
  | StorageError _ => "StorageError"
  end.

Definition MisConfiguredError := "AuditLogServiceMisConfiguredError".
Definition InvalidActionError := "AuditLogServiceInvalidActionError".
Definition UnknownTableNameError := "AuditLogServiceUnknownTableNameError".
Definition InvalidChangeSetError := "AuditLogServiceInvalidChangeSetError".
(** The spec's name for a rejected composite key; the source declares no
    such class. *)
Definition UnsupportedKeyError := "UnsupportedKeyError".

(** [throw Cls(msg)] without [new]: calling a class constructor as a
    function raises a TypeError before any instance exists. *)
Definition calledWithoutNew (cls : string) : exn :=
  TypeError ("Class constructor " +:+ cls +:+ " cannot be invoked without 'new'").

(** [this.#user] evaluated on an object that does not carry the private
    field. *)
Definition privateMemberMissing : exn :=
  TypeError "Cannot read private member #user from an object whose class did not declare it".

Inductive result (A : Type) :=
| Ok (a : A)
| Throw (e : exn).
Arguments Ok {A} a.
Arguments Throw {A} e.

(** ** Records of the storage collaborator, as the code observes them *)

Record DashboardUser := { user_id : scalar }.

Record Transaction := {
  txId : nat;
  commitOutcome : option exn;      (* [None]: commit() resolves *)
  rollbackOutcome : option exn     (* [None]: rollback() resolves *)
}.

(** What Sequelize keeps on a model class: [Model.tableName] and
    [Model.primaryKeyAttributes].  They are statics; the service never
    reads them. *)
Record ModelStatics := {
  staticTableName : string;
  staticPrimaryKeyAttributes : list string
}.

(** A model instance: the properties and methods the service reads on
    the object.  [tableName] and [primaryKeyAttributes] are what
    [model.tableName] and [model.primaryKeyAttributes] read on the
    instance itself: on a row as Sequelize builds it neither is a
    property of the instance, so the first is [undefined] and the second
    is mapped by lodash as the empty list.  [statics] are those of the
    instance's class.  [changed] is the answer of [model.changed()]:
    [None] is [false], [Some l] the array of dirty field names. *)
Record Model := {
  statics : ModelStatics;
  tableName : scalar;
  primaryKeyAttributes : list string;
  dataValues : gmap string scalar;            (* model[f], model.get(f) *)
  previousDataValues : gmap string scalar;    (* model.previous(f) *)
  changed : option (list string);
  labelProvider : option (string → scalar → option string);
  saveOutcome : option exn;                   (* [None]: save() resolves *)
  destroyOutcome : option exn                 (* [None]: destroy() resolves *)
}.

Inductive jsval :=
| JScalar (s : scalar)
| JObject (o : gmap string scalar)
| JModel (m : Model).

Definition null : jsval := JScalar SNull.

Definition get (m : Model) (fieldName : string) : scalar :=
  default SUndefined (dataValues m !! fieldName).

Definition previous (m : Model) (fieldName : string) : scalar :=
  default SUndefined (previousDataValues m !! fieldName).

(** A registered model class: what [model.create(data)] answers. *)
Record ModelClass := {
  createOutcome : jsval → result Model
}.

(** The object literal handed to [DashboardAuditLog.create].  [action]
    is absent from the literal of the update path and [fieldName] from
    those of the create and delete paths. *)
Record AuditEntry := {
  changesetUuidBin : N;
  entryTableName : scalar;
  fieldName : option string;
  action : option string;
  primaryKey : string;
  oldValue : jsval;
  newValue : jsval;
  oldLabel : jsval;
  newLabel : jsval;
  changedBy : scalar
}.

(** ** Effects *)

Inductive event :=
| EvCommit (t : Transaction)
| EvRollback (t : Transaction)
| EvLogError (e : exn)
| EvCreateRow (data : jsval)
| EvDestroy (m : Model)
| EvSave (m : Model)
| EvAudit (entry : AuditEntry).

Record world := {
  trace : list event;    (* effects issued so far, oldest first *)
  minted : nat           (* number of calls made to uuid() *)
}.

Definition M (A : Type) : Type := world → world * result A.

Definition ret {A} (a : A) : M A := λ w, (w, Ok a).
Definition throw {A} (e : exn) : M A := λ w, (w, Throw e).
Definition bind {A B} (m : M A) (k : A → M B) : M B :=
  λ w, match m w with
       | (w', Ok a) => k a w'
       | (w', Throw e) => (w', Throw e)
       end.
Definition lift {A} (r : result A) : M A := λ w, (w, r).
Definition emit (ev : event) : M unit :=
  λ w, ({| trace := trace w ++ [ev]; minted := minted w |}, Ok tt).
(** [try { body } catch (error) { handler error }] *)
Definition tryCatch {A} (body : M A) (handler : exn → M A) : M A :=
  λ w, match body w with
       | (w', Ok a) => (w', Ok a)
       | (w', Throw e) => handler e w'
       end.
(** Awaiting an external promise whose outcome the collaborator fixes. *)
Definition settleWith (o : option exn) : M unit :=
  match o with
  | None => ret tt
  | Some e => throw e
  end.

Global Instance result_ret : MRet result := @Ok.
Global Instance result_bind : MBind result :=
  λ A B k r, match r with Ok a => k a | Throw e => Throw e end.
Global Instance M_ret : MRet M := @ret.
Global Instance M_bind : MBind M := λ A B k m, bind m k.

(** [array.reduce(f, init)] with an effectful callback *)
Fixpoint reduceM {A B} (f : B → A → M B) (acc : B) (l : list A) : M B :=
  match l with
  | [] => mret acc
  | x :: l' => acc' ← f acc x; reduceM f acc' l'
  end.

(** The audit entries written in a trace. *)
Definition auditsOf (tr : list event) : list AuditEntry :=
  omap (λ ev, match ev with EvAudit e => Some e | _ => None end) tr.

(** ** AUDIT_ACTIONS *)

Module AUDIT_ACTIONS.
Definition CREATE := "CREATE".
Definition DELETE := "DELETE".
Definition UPDATE := "UPDATE".
(** [Object.keys(AUDIT_ACTIONS)] *)
Definition keys : list string := [CREATE; DELETE; UPDATE].
End AUDIT_ACTIONS.

(** ** getPrimaryKeyForModel *)

Definition getPrimaryKeyForModel (model : Model) : string :=
  let primaryKeyValues :=
    map (λ primaryKeyAttribute, get model primaryKeyAttribute)
        (primaryKeyAttributes model) in
  (* Composite primary keys will be stored as comma separated *)
  String.concat "," (map joinElement primaryKeyValues).

(** ** The label resolver *)

(** Modelled from the spec: the label resolver, which the source calls
    as [labelValue] (lines 122, 152, 188 and 189) but neither defines
    nor imports.  Section 4.2: [resolve(recordType, fieldName, rawValue)]
    yields a label or absent; a record type that does not implement the
    translation capability yields absent, never an error, and the
    resolver has no side effect.  The record type is represented by its
    optional capability. *)
Definition resolve (capability : option (string → scalar → option string))
    (fieldName : string) (rawValue : scalar) : option string :=
  match capability with
  | None => None
  | Some translate => translate fieldName rawValue
  end.

(** Modelled from the spec: [labelValue(value)], the whole-record form
    of the resolver (section 4.4, labels resolved against the full
    value; the README tables), for a value of the record type whose
    capability is [capability]: the object made of the labels of the
    fields that resolve, and null, as absent is serialized, when none
    does. *)
Definition labelValue (capability : option (string → scalar → option string))
    (value : gmap string scalar) : jsval :=
  let labels := map_imap (resolve capability) value in
  if decide (labels = ∅) then null else JObject (SStr <$> labels).

(** ** class AuditLogService *)

(** What a private field holds: a primitive ([undefined] until set) or
    the object bound by the caller. *)
Inductive bound (A : Type) :=
| BScalar (s : scalar)
| BObject (a : A).
Arguments BScalar {A} s.
Arguments BObject {A} a.

Definition undefined {A} : bound A := BScalar SUndefined.

Definition boundTruthy {A} (v : bound A) : bool :=
  match v with
  | BScalar s => truthy s
  | BObject _ => true
  end.

Definition nullish {A} (v : bound A) : bool :=
  match v with
  | BScalar SUndefined | BScalar SNull => true
  | _ => false
  end.

Record AuditLogService := {
  user : bound DashboardUser;           (* #user *)
  transaction : bound Transaction       (* #transaction *)
}.

(** Instances live in a store; a method that returns [this] returns the
    address it was called on. *)
Definition loc := nat.
Abbreviation heap := (gmap loc AuditLogService).

Definition withUser (this : loc) (u : bound DashboardUser) (h : heap) : loc * heap :=
  (this, alter (λ s, {| user := u; transaction := transaction s |}) this h).

Definition withTransaction (this : loc) (t : bound Transaction) (h : heap) : loc * heap :=
  (this, alter (λ s, {| user := user s; transaction := t |}) this h).

(** [model instanceof Model] *)
Definition supportedModel (model : jsval) : bool :=
  match model with
  | JModel _ => true
  | _ => false
  end.

(** The receiver of a static call: the class object itself, which holds
    no private field, or an instance. *)
Inductive receiver :=
| TheClass
| AnInstance (s : AuditLogService).

(** [this.#user] *)
Definition readUser (this : receiver) : result (bound DashboardUser) :=
  match this with
  | TheClass => Throw privateMemberMissing
  | AnInstance s => Ok (user s)
  end.

Definition verifyArguments (this : receiver) (changeSet : list jsval) : result unit :=
  (* 1. Make sure user is initialized *)
  u ← readUser this;
  _ ← (if negb (boundTruthy u)
       then Throw (DriveError MisConfiguredError "Providing a user is required")
       else Ok tt);
  (* 2. Make sure model is supported *)
  if negb (forallb supportedModel changeSet)
  then Throw (calledWithoutNew InvalidChangeSetError)
  else Ok tt.

(** ** Promises *)

(** An element of the arrays the reducers build: a pending write with
    the outcome the collaborator will settle it with, or a nested array,
    which [Promise.all] would treat as a plain value. *)
#[warnings="-register-all"]
Inductive pitem :=
| PPromise (outcome : option exn)
| PArray (items : list pitem).

(** The closures the three static builders return, each taking the
    array [promises]. *)
Inductive executable :=
| CreateExecutable (model : ModelClass) (tableName : scalar) (data : jsval) (changedBy : scalar)
| DestroyExecutable (model : jsval) (tableName : scalar) (changedBy : scalar)
| UpdateExecutable (changeSet : list jsval) (changedBy : scalar).

(** [const { tableName } = v] *)
Definition destructureTableName (v : jsval) : result scalar :=
  match v with
  | JScalar SUndefined | JScalar SNull =>
      Throw (TypeError "Cannot destructure property 'tableName' of undefined or null")
  | JScalar _ => Ok SUndefined
  | JObject o => Ok (default SUndefined (o !! "tableName"))
  | JModel m => Ok (tableName m)
  end.

(** [u.id] for the bound user [u] *)
Definition readUserId (u : bound DashboardUser) : result scalar :=
  match u with
  | BScalar SUndefined | BScalar SNull =>
      Throw (TypeError "Cannot read properties of undefined (reading 'id')")
  | BScalar _ => Ok SUndefined
  | BObject d => Ok (user_id d)
  end.

(** [changeSet.filter(model => model.changed() !== false)] *)
Fixpoint filterChanged (changeSet : list jsval) : result (list Model) :=
  match changeSet with
  | [] => Ok []
  | JModel m :: rest =>
      kept ← filterChanged rest;
      Ok (match changed m with None => kept | Some _ => m :: kept end)
  | _ :: _ => Throw (TypeError "model.changed is not a function")
  end.

(** Lines 173-178: the two objects filled while mapping over the dirty
    fields.  The second assignment indexes [newValue] by the object
    [newValue] itself, whose property key is "[object Object]". *)
Definition collectValues (model : Model) (fields : list string)
    : gmap string scalar * gmap string scalar :=
  foldl (λ acc fieldName,
           (<[fieldName := previous model fieldName]> (acc.1),
            <["[object Object]" := get model fieldName]> (acc.2)))
        (∅, ∅) fields.

(** The collaborators the module imports. *)
Record imports := {
  DBModels : string → option ModelClass;          (* the registry of model classes *)
  uuidv4 : nat → N;                                (* the n-th value uuid() returns *)
  auditOutcome : AuditEntry → option exn          (* how DashboardAuditLog.create settles *)
}.

Section Service.

Variable env : imports.

Definition uuid : M N :=
  λ w, ({| trace := trace w; minted := S (minted w) |}, Ok (uuidv4 env (minted w))).

(** [DashboardAuditLog.create(entry)]: the insert is issued and a
    promise comes back. *)
Definition DashboardAuditLog_create (entry : AuditEntry) : M pitem :=
  emit (EvAudit entry);; mret (PPromise (auditOutcome env entry)).

(** *** createModel *)

(** The closure of lines 109-127.  [createRow] is an arrow function and
    a function object has no [then] property, so [createRow.then(...)]
    calls [undefined]: the closure raises before the row is created and
    before the callback that builds the audit entry exists. *)
Definition createModelExecutable (model : ModelClass) (tableName : scalar) (data : jsval)
    (changedBy : scalar) (promises : list pitem) : M (list pitem) :=
  createRowWithAudit ← throw (A := unit → M pitem) (TypeError "createRow.then is not a function");
  created ← createRowWithAudit tt;
  mret (promises ++ [created]).

Definition createModel (data : jsval) (changedBy : scalar) : result executable :=
  tableName ← destructureTableName data;
  match DBModels env (propertyKey tableName) with
  | None => Throw (calledWithoutNew UnknownTableNameError)
  | Some model =>
      (* Delete tableName from data: [dataWithTableName] is declared nowhere *)
      _ ← Throw (A := unit) (ReferenceError "dataWithTableName");
      Ok (CreateExecutable model tableName data changedBy)
  end.

(** *** destroyModel *)

(** The closure of lines 140-158; [destroyRow.then] fails like
    [createRow.then]. *)
Definition destroyModelExecutable (model : jsval) (tableName : scalar) (changedBy : scalar)
    (promises : list pitem) : M (list pitem) :=
  destroyRowAndCreateAudit ← throw (A := unit → M pitem) (TypeError "destroyRow.then is not a function");
  destroyed ← destroyRowAndCreateAudit tt;
  mret (promises ++ [destroyed]).

Definition destroyModel (model : jsval) (changedBy : scalar) : result executable :=
  _ ← verifyArguments TheClass [model];
  tableName ← destructureTableName model;
  Ok (DestroyExecutable model tableName changedBy).

(** *** updateChangeSet *)

(** The callback of lines 180-192, for one dirty field.  The properties
    of the literal are evaluated in order, with [labelValue] standing
    for the resolver above at the capability of the record's type; the
    argument of [labelValue(newLabel)] names a variable that is declared
    nowhere, so the literal is never completed. *)
Definition auditForField (uuidString : N) (tableName : scalar) (model : Model)
    (oldValue newValue : gmap string scalar) (changedBy : scalar)
    (fieldName : string) : M pitem :=
  let primaryKey := getPrimaryKeyForModel model in
  let oldLabel := labelValue (labelProvider model) oldValue in
  newLabel ← throw (A := gmap string scalar) (ReferenceError "newLabel");
  DashboardAuditLog_create
    {| changesetUuidBin := uuidString;
       entryTableName := tableName;
       fieldName := Some fieldName;
       action := None;
       primaryKey := primaryKey;
       oldValue := JObject oldValue;
       newValue := JObject newValue;
       oldLabel := oldLabel;
       newLabel := labelValue (labelProvider model) newLabel;
       changedBy := changedBy |}.

(** [model.save()] *)
Definition save (model : Model) : M pitem :=
  emit (EvSave model);; mret (PPromise (saveOutcome model)).

Definition modelUpdateReducer (uuidString : N) (changedBy : scalar)
    (promises : list pitem) (model : Model) : M (list pitem) :=
  match changed model with
  | None => throw (TypeError "model.changed(...).map is not a function")
  | Some fields =>
      let values := collectValues model fields in
      createAudit ← mapM (auditForField uuidString (tableName model) model
                             (values.1) (values.2) changedBy) fields;
      saved ← save model;
      mret (promises ++ createAudit ++ [saved])
  end.

(** The closure of lines 169-201. *)
Definition updateChangeSetExecutable (changeSet : list jsval) (changedBy : scalar)
    (promises : list pitem) : M (list pitem) :=
  uuidString ← uuid;
  let updateReducer := modelUpdateReducer uuidString changedBy in
  filtered ← lift (filterChanged changeSet);
  updates ← reduceM updateReducer [] filtered;
  mret (promises ++ [PArray updates]).

Definition updateChangeSet (changeSet : list jsval) (changedBy : scalar) : executable :=
  UpdateExecutable changeSet changedBy.

(** Calling one of the closures. *)
Definition call (f : executable) (promises : list pitem) : M (list pitem) :=
  match f with
  | CreateExecutable model tableName data changedBy =>
      createModelExecutable model tableName data changedBy promises
  | DestroyExecutable model tableName changedBy =>
      destroyModelExecutable model tableName changedBy promises
  | UpdateExecutable changeSet changedBy =>
      updateChangeSetExecutable changeSet changedBy promises
  end.

(** *** execute *)

(** [Object.keys(AUDIT_ACTIONS).includes(action)] *)
Definition includesKey (action : scalar) : bool :=
  match action with
  | SStr s => bool_decide (s ∈ AUDIT_ACTIONS.keys)
  | _ => false
  end.

(** Lines 213-216. *)
Definition checkAction (action : scalar) : result unit :=
  let actionIsPresentAndValid := truthy action && includesKey action in
  if negb actionIsPresentAndValid
  then Throw (calledWithoutNew InvalidActionError)
  else Ok tt.

(** Lines 217-221. *)
Definition checkCardinality (action : scalar) (changeSet : list jsval) : result unit :=
  if bool_decide (action ∈ [SStr AUDIT_ACTIONS.CREATE; SStr AUDIT_ACTIONS.DELETE])
  then if bool_decide (1 < length changeSet)
       then Throw (calledWithoutNew InvalidChangeSetError)
       else Ok tt
  else Ok tt.

(** Lines 212-221, the checks made before a transaction is opened.
    [static] is the receiver [verifyArguments] runs with; [execute]
    calls it on the class. *)
Definition validation (static : receiver) (action : scalar) (changeSet : list jsval)
    : result unit :=
  _ ← verifyArguments static changeSet;
  _ ← checkAction action;
  checkCardinality action changeSet.

(** [this.#transaction ?? sequelize.transaction()].  [sequelize] is the
    module [require('sequelize')], which has no static [transaction]:
    when no transaction is bound the call is a call of [undefined]. *)
Definition openTransaction (this : AuditLogService) : M (bound Transaction) :=
  if nullish (transaction this)
  then throw (TypeError "sequelize.transaction is not a function")
  else mret (transaction this).

Definition commit (t : bound Transaction) : M unit :=
  match t with
  | BObject tx => emit (EvCommit tx);; settleWith (commitOutcome tx)
  | BScalar _ => throw (TypeError "transaction.commit is not a function")
  end.

Definition rollback (t : bound Transaction) : M unit :=
  match t with
  | BObject tx => emit (EvRollback tx);; settleWith (rollbackOutcome tx)
  | BScalar _ => throw (TypeError "transaction.rollback is not a function")
  end.

(** Lines 223-233. *)
Definition executablesFor (this : AuditLogService) (action : scalar)
    (changeSet : list jsval) : result (option executable) :=
  if decide (action = SStr AUDIT_ACTIONS.UPDATE) then
    changedBy ← readUserId (user this);
    Ok (Some (updateChangeSet changeSet changedBy))
  else if decide (action = SStr AUDIT_ACTIONS.CREATE) then
    changedBy ← readUserId (user this);
    f ← createModel (default (JScalar SUndefined) (changeSet !! 0%nat)) changedBy;
    Ok (Some f)
  else if decide (action = SStr AUDIT_ACTIONS.DELETE) then
    changedBy ← readUserId (user this);
    f ← destroyModel (default (JScalar SUndefined) (changeSet !! 0%nat)) changedBy;
    Ok (Some f)
  else Ok None.

(** [await Promise.all(executables)].  [executables] is one of the
    closures above, or [undefined]; the closure is not called, and
    neither value is iterable. *)
Definition promiseAll (executables : option executable) : M unit :=
  match executables with
  | Some _ => throw (TypeError "function is not iterable")
  | None => throw (TypeError "undefined is not iterable")
  end.

(** Lines 236-248: the try/catch around the awaited work. *)
Definition settle (t : bound Transaction) (manageTransactionInternally : bool)
    (awaited : M unit) : M unit :=
  tryCatch
    (awaited;;
     if manageTransactionInternally then commit t else mret tt)
    (λ error,
       emit (EvLogError error);;
       (if manageTransactionInternally then rollback t else mret tt);;
       throw error).

Definition execute (this : AuditLogService) (action : scalar) (changeSet : list jsval)
    (manageTransaction : bool) : M unit :=
  lift (validation TheClass action changeSet);;
  t ← openTransaction this;
  executables ← lift (executablesFor this action changeSet);
  let manageTransactionInternally :=
    if boundTruthy (transaction this) then manageTransaction else true in
  settle t manageTransactionInternally (promiseAll executables).

End Service.

(** ** module.exports *)

(** [AuditLogService.execute(...)]: [execute] is declared on the
    prototype, not as a static member, so the property read on the class
    yields [undefined] and the call raises. *)
Definition staticExecute (action : scalar) (changeSet : list jsval)
    (manageTransaction : bool) : M unit :=
  throw (TypeError "AuditLogService.execute is not a function").

Module exports.

Definition init (h : heap) : loc * heap :=
  let this := fresh (dom h) in
  (this, <[this := {| user := undefined; transaction := undefined |}]> h).

(** The three wrappers, over what [AuditLogService.execute] denotes. *)
Definition createOn (callee : scalar → list jsval → bool → M unit)
    (tableName : scalar) (data : gmap string scalar) (manageTransaction : bool) : M unit :=
  callee (SStr AUDIT_ACTIONS.CREATE) [JObject (<["tableName" := tableName]> data)]
         manageTransaction.

Definition deleteOn (callee : scalar → list jsval → bool → M unit)
    (model : jsval) (manageTransaction : bool) : M unit :=
  callee (SStr AUDIT_ACTIONS.CREATE) [model] manageTransaction.

Definition updateOn (callee : scalar → list jsval → bool → M unit)
    (changeSet : list jsval) (manageTransaction : bool) : M unit :=
  callee (SStr AUDIT_ACTIONS.UPDATE) changeSet manageTransaction.

Definition create := createOn staticExecute.
Definition delete := deleteOn staticExecute.
Definition update := updateOn staticExecute.

End exports.

(** ** Sample data *)

Definition emptyWorld : world := {| trace := []; minted := 0 |}.

Definition sampleTransaction : Transaction :=
  {| txId := 1; commitOutcome := None; rollbackOutcome := None |}.

(** A transaction whose rollback is itself rejected by the store. *)
Definition brokenTransaction : Transaction :=
  {| txId := 2; commitOutcome := None; rollbackOutcome := Some (StorageError 2) |}.

Definition sampleImports : imports :=
  {| DBModels := λ _, None;
     uuidv4 := N.of_nat;
     auditOutcome := λ _, None |}.

Definition loggedIn : AuditLogService :=
  {| user := BObject {| user_id := SNum 13 |}; transaction := undefined |}.

Definition anonymous : AuditLogService :=
  {| user := undefined; transaction := undefined |}.

(** The delivery settings of the README, as Sequelize loads them: two
    dirty fields. *)
Definition deliverySettings : Model :=
  {| statics :=
       {| staticTableName := "DeliverySettingsProfile";
          staticPrimaryKeyAttributes := ["id"] |};
     tableName := SUndefined;
     primaryKeyAttributes := [];
     dataValues :=
       {[ "id" := SNum 41; "deliveryRangeMiles" := SNum 100; "offerDeliveryTradeIn" := SNum 1 ]};
     previousDataValues :=
       {[ "id" := SNum 41; "deliveryRangeMiles" := SNum 50; "offerDeliveryTradeIn" := SNum 0 ]};
     changed := Some ["deliveryRangeMiles"; "offerDeliveryTradeIn"];
     labelProvider := None;
     saveOutcome := None;
     destroyOutcome := None |}.

(** A fee row of a class keyed by two attributes, freshly loaded. *)
Definition feeByDistance : Model :=
  {| statics :=
       {| staticTableName := "DeliveryFeeByDistance";
          staticPrimaryKeyAttributes := ["profileId"; "distanceMiles"] |};
     tableName := SUndefined;
     primaryKeyAttributes := [];
     dataValues := {[ "profileId" := SNum 42; "distanceMiles" := SNum 200; "feeCents" := SNum 11000 ]};
     previousDataValues := {[ "profileId" := SNum 42; "distanceMiles" := SNum 200; "feeCents" := SNum 11000 ]};
     changed := None;
     labelProvider := None;
     saveOutcome := None;
     destroyOutcome := None |}.

(** The row the store hands back for a created fee: the supplied
    attributes and a generated [id]. *)
Definition createdFee : Model :=
  {| statics :=
       {| staticTableName := "DeliveryFeeByDistance";
          staticPrimaryKeyAttributes := ["id"] |};
     tableName := SUndefined;
     primaryKeyAttributes := [];
     dataValues := {[ "id" := SNum 3; "profileId" := SNum 42; "distanceMiles" := SNum 200 ]};
     previousDataValues := ∅;
     changed := None;
     labelProvider := None;
     saveOutcome := None;
     destroyOutcome := None |}.

Definition suppliedFee : gmap string scalar :=
  {[ "profileId" := SNum 42; "distanceMiles" := SNum 200 ]}.

(** The same record, carrying [keys] as its own [primaryKeyAttributes]
    property. *)
Definition rekeyModel (keys : list string) (m : Model) : Model :=
  {| statics := statics m;
     tableName := tableName m;
     primaryKeyAttributes := keys;
     dataValues := dataValues m;
     previousDataValues := previousDataValues m;
     changed := changed m;
     labelProvider := labelProvider m;
     saveOutcome := saveOutcome m;
     destroyOutcome := destroyOutcome m |}.

(** The number of dirty fields a record reports. *)
Definition dirtyCount (m : Model) : nat := length (default [] (changed m)).

(** An object that carries the two key attributes [region] and [code]
    as its own [primaryKeyAttributes]. *)
Definition pairKeyed (region code : scalar) : Model :=
  {| statics :=
       {| staticTableName := "Depot";
          staticPrimaryKeyAttributes := ["region"; "code"] |};
     tableName := SStr "Depot";
     primaryKeyAttributes := ["region"; "code"];
     dataValues := {[ "region" := region; "code" := code ]};
     previousDataValues := {[ "region" := region; "code" := code ]};
     changed := None;
     labelProvider := None;
     saveOutcome := None;
     destroyOutcome := None |}.

(** * Properties *)

(** Unfolding the monad down to functions on worlds. *)
Ltac run_M :=
  repeat (progress
    (unfold mbind, M_bind, bind, mret, M_ret, ret, emit, throw, lift, settleWith, tryCatch;
     cbn)).

(** ** Every call of [execute] stops at the first private read *)

Lemma validation_on_class (action : scalar) (changeSet : list jsval) :
  validation TheClass action changeSet = Throw privateMemberMissing.
Proof. reflexivity. Qed.

Lemma execute_stops_at_private_read (env : imports) (this : AuditLogService)
    (action : scalar) (changeSet : list jsval) (manageTransaction : bool) (w : world) :
  execute env this action changeSet manageTransaction w = (w, Throw privateMemberMissing).
Proof. reflexivity. Qed.

(** ** delete *)

Lemma createModel_raises (env : imports) (data : jsval) (changedBy : scalar) :
  ∃ e : exn, createModel env data changedBy = Throw e.
Proof.
  unfold createModel.
  destruct (destructureTableName data) as [tableName|e]; cbn; [| by eexists].
  destruct (DBModels env (propertyKey tableName)) as [model|]; cbn; by eexists.
Qed.

(** C1, a defect of the code: the exported [delete] hands
    [AUDIT_ACTIONS.CREATE], not [DELETE], to [execute], whatever
    [AuditLogService.execute] denotes.  As exported it raises a
    TypeError and leaves the world untouched; run against the [execute]
    of an instance it is the CREATE request, the work planned for that
    request is [createModel], which raises for every record, and no
    audit entry is written. *)
Theorem delete_export_requests_create (env : imports) (this : AuditLogService)
    (model : jsval) (manageTransaction : bool) (w : world) :
  exports.delete model manageTransaction w
    = (w, Throw (TypeError "AuditLogService.execute is not a function"))
  ∧ exports.deleteOn (execute env this) model manageTransaction
    = execute env this (SStr AUDIT_ACTIONS.CREATE) [model] manageTransaction
  ∧ (∃ e : exn, executablesFor env this (SStr AUDIT_ACTIONS.CREATE) [model] = Throw e)
  ∧ auditsOf (trace (exports.deleteOn (execute env this) model manageTransaction w).1)
    = auditsOf (trace w).
Proof.
  split; [reflexivity|].
  split; [reflexivity|].
  split; [| reflexivity].
  unfold executablesFor. cbn.
  destruct (readUserId (user this)) as [changedBy|e]; cbn; [| by eexists].
  destruct (createModel_raises env model changedBy) as [e ->]. by eexists.
Qed.

(** ** The try/catch of execute *)

Lemma settle_on_failure (t : bound Transaction) (manage : bool) (awaited : M unit)
    (w w' : world) (error : exn) :
  awaited w = (w', Throw error) →
  settle t manage awaited w
  = ((emit (EvLogError error);;
      (if manage then rollback t else mret tt);;
      throw error) w').
Proof.
  intros Hawaited. unfold settle, tryCatch.
  unfold mbind at 1, M_bind at 1, bind at 1. by rewrite Hawaited.
Qed.

(** C2, as amended: with the transaction managed internally, a failure
    of the awaited writes is logged, the transaction is rolled back and
    not committed, and the same error is raised again when the rollback
    completes; when the rollback itself fails, its failure is the one
    raised. *)
Theorem settle_failure_rolls_back (tx : Transaction) (awaited : M unit)
    (w w' : world) (error : exn) :
  awaited w = (w', Throw error) →
  settle (BObject tx) true awaited w
  = ({| trace := trace w' ++ [EvLogError error; EvRollback tx]; minted := minted w' |},
     Throw (default error (rollbackOutcome tx))).
Proof.
  intros Hawaited. rewrite (settle_on_failure _ _ _ _ _ _ Hawaited).
  destruct tx as [n c [e'|]]; run_M; by rewrite <- app_assoc.
Qed.

Lemma settle_failure_rolls_back_witness :
  throw (A := unit) (StorageError 1) emptyWorld = (emptyWorld, Throw (StorageError 1))
  ∧ settle (BObject sampleTransaction) true (throw (StorageError 1)) emptyWorld
    = ({| trace := [EvLogError (StorageError 1); EvRollback sampleTransaction]; minted := 0 |},
       Throw (StorageError 1)).
Proof.
  split; [reflexivity|].
  exact (settle_failure_rolls_back sampleTransaction (throw (StorageError 1))
           emptyWorld emptyWorld (StorageError 1) eq_refl).
Defined.

(** C2 as stated fails: when the rollback is rejected, the caller
    receives the rollback's error in place of the originating one. *)
Lemma settle_rollback_failure_replaces_error :
  (settle (BObject brokenTransaction) true (throw (StorageError 1)) emptyWorld).2
    = Throw (StorageError 2)
  ∧ StorageError 2 ≠ StorageError 1.
Proof. split; [reflexivity | discriminate]. Qed.

(** ** withUser and withTransaction *)

Lemma alter_present (h : heap) (this : loc) (s : AuditLogService)
    (f : AuditLogService → AuditLogService) :
  h !! this = Some s → alter f this h = <[this := f s]> h.
Proof.
  intros Hs. apply map_eq. intros l.
  destruct (decide (this = l)) as [->|Hne].
  - by rewrite lookup_alter_eq, lookup_insert_eq, Hs.
  - by rewrite lookup_alter_ne, lookup_insert_ne.
Qed.

(** C10: on a live instance [withUser] replaces the bound user and
    nothing else, [withTransaction] replaces the bound transaction and
    nothing else, each returns the address it was called on, and the two
    chained in either order leave the same store. *)
Theorem withUser_withTransaction_frame (h : heap) (this : loc) (s : AuditLogService)
    (u : bound DashboardUser) (t : bound Transaction) :
  h !! this = Some s →
  withUser this u h = (this, <[this := {| user := u; transaction := transaction s |}]> h)
  ∧ withTransaction this t h = (this, <[this := {| user := user s; transaction := t |}]> h)
  ∧ withTransaction (withUser this u h).1 t (withUser this u h).2
    = (this, <[this := {| user := u; transaction := t |}]> h)
  ∧ withUser (withTransaction this t h).1 u (withTransaction this t h).2
    = (this, <[this := {| user := u; transaction := t |}]> h).
Proof.
  intros Hs.
  assert (Hu : withUser this u h
               = (this, <[this := {| user := u; transaction := transaction s |}]> h)).
  { unfold withUser. by rewrite (alter_present _ _ _ _ Hs). }
  assert (Ht : withTransaction this t h
               = (this, <[this := {| user := user s; transaction := t |}]> h)).
  { unfold withTransaction. by rewrite (alter_present _ _ _ _ Hs). }
  repeat split; [done | done | |].
  - rewrite Hu. cbn. unfold withTransaction.
    rewrite (alter_present _ _ {| user := u; transaction := transaction s |});
      [| by rewrite lookup_insert_eq].
    cbn. by rewrite insert_insert_eq.
  - rewrite Ht. cbn. unfold withUser.
    rewrite (alter_present _ _ {| user := user s; transaction := t |});
      [| by rewrite lookup_insert_eq].
    cbn. by rewrite insert_insert_eq.
Qed.

Lemma withUser_withTransaction_frame_witness :
  ({[ 0%nat := anonymous ]} : heap) !! 0%nat = Some anonymous
  ∧ withUser 0%nat (BObject {| user_id := SNum 13 |}) {[ 0%nat := anonymous ]}
    = (0%nat, <[0%nat := loggedIn]> ({[ 0%nat := anonymous ]} : heap)).
Proof.
  split; [reflexivity|].
  exact (proj1 (withUser_withTransaction_frame {[ 0%nat := anonymous ]} 0%nat anonymous
                  (BObject {| user_id := SNum 13 |}) undefined eq_refl)).
Defined.

(** ** Validation *)

Lemma supportedModel_alike (changeSet changeSet' : list jsval) :
  Forall2 (λ v v', supportedModel v = supportedModel v') changeSet changeSet' →
  forallb supportedModel changeSet = forallb supportedModel changeSet'
  ∧ length changeSet = length changeSet'.
Proof.
  induction 1 as [|v v' rest rest' Hv _ [IHsup IHlen]]; [done|].
  cbn. by rewrite Hv, IHsup, IHlen.
Qed.

Lemma validation_failures (static : receiver) (action : scalar) (changeSet : list jsval) :
  validation static action changeSet = Ok tt
  ∨ ∃ e : exn,
      validation static action changeSet = Throw e
      ∧ (errorClass e = "TypeError" ∨ errorClass e = MisConfiguredError).
Proof.
  unfold validation, verifyArguments, readUser, checkAction, checkCardinality.
  destruct static as [|s]; cbn.
  { right. eexists. split; [reflexivity | by left]. }
  destruct (boundTruthy (user s)); cbn;
    [| right; eexists; split; [reflexivity | by right]].
  destruct (forallb supportedModel changeSet); cbn;
    [| right; eexists; split; [reflexivity | by left]].
  destruct (truthy action && includesKey action); cbn;
    [| right; eexists; split; [reflexivity | by left]].
  destruct (bool_decide _); [| by left].
  destruct (bool_decide _); [| by left].
  right. eexists. split; [reflexivity | by left].
Qed.

(** C3, as amended: no check looks at a member's primary key.  The
    outcome of validation depends on the receiver, on the action and,
    member by member, only on whether the member is a model instance,
    so that a change-set holding a record of a composite-key class is
    accepted or turned down exactly like the same change-set holding a
    single-key record in its place; and when validation fails, it fails
    with a TypeError or with the misconfiguration error, never with an
    unsupported-key error. *)
Theorem validation_ignores_keys (static : receiver) (action : scalar)
    (changeSet changeSet' : list jsval) :
  Forall2 (λ v v', supportedModel v = supportedModel v') changeSet changeSet' →
  validation static action changeSet = validation static action changeSet'
  ∧ (validation static action changeSet = Ok tt
     ∨ ∃ e : exn,
         validation static action changeSet = Throw e
         ∧ (errorClass e = "TypeError" ∨ errorClass e = MisConfiguredError)
         ∧ errorClass e ≠ UnsupportedKeyError).
Proof.
  intros [Hsup Hlen]%supportedModel_alike. split.
  - unfold validation, verifyArguments, checkCardinality. by rewrite Hsup, Hlen.
  - destruct (validation_failures static action changeSet) as [Hok|(e & He & Hclass)];
      [by left|].
    right. exists e. split; [done|]. split; [done|].
    destruct Hclass as [-> | ->]; discriminate.
Qed.

Lemma validation_ignores_keys_witness :
  (length (staticPrimaryKeyAttributes (statics feeByDistance)) = 2
   ∧ length (staticPrimaryKeyAttributes (statics deliverySettings)) = 1
   ∧ Forall2 (λ v v', supportedModel v = supportedModel v')
       [JModel feeByDistance] [JModel deliverySettings])
  ∧ validation (AnInstance loggedIn) (SStr AUDIT_ACTIONS.UPDATE) [JModel feeByDistance]
    = validation (AnInstance loggedIn) (SStr AUDIT_ACTIONS.UPDATE) [JModel deliverySettings].
Proof.
  assert (Halike : Forall2 (λ v v', supportedModel v = supportedModel v')
                     [JModel feeByDistance] [JModel deliverySettings]).
  { constructor; [reflexivity | constructor]. }
  split; [exact (conj eq_refl (conj eq_refl Halike))|].
  exact (proj1 (validation_ignores_keys (AnInstance loggedIn) (SStr AUDIT_ACTIONS.UPDATE)
                  [JModel feeByDistance] [JModel deliverySettings] Halike)).
Defined.

(** C3 as stated fails: a record of a class keyed by two attributes
    passes every check, and the error [execute] raises for it is the
    TypeError of the private read, not an unsupported-key error. *)
Lemma composite_key_passes_validation :
  length (staticPrimaryKeyAttributes (statics feeByDistance)) = 2
  ∧ validation (AnInstance loggedIn) (SStr AUDIT_ACTIONS.UPDATE) [JModel feeByDistance]
    = Ok tt
  ∧ (execute sampleImports loggedIn (SStr AUDIT_ACTIONS.UPDATE) [JModel feeByDistance] true
       emptyWorld).2 = Throw privateMemberMissing
  ∧ errorClass privateMemberMissing ≠ UnsupportedKeyError.
Proof.
  split; [reflexivity|].
  split; [vm_compute; reflexivity|].
  split; [reflexivity | discriminate].
Qed.

(** C4, as amended: run on an instance, the checks come in the order
    actor, member support, action, cardinality, and the first that
    fails decides: without an actor the result is the misconfiguration
    error whatever else is wrong; with an actor and an unsupported
    member it is the member check that fails, also for an invalid
    action; the action check fails only once every member is supported,
    whatever the number of members. *)
Theorem validation_order (s : AuditLogService) (action : scalar) (changeSet : list jsval) :
  (boundTruthy (user s) = false →
   validation (AnInstance s) action changeSet
   = Throw (DriveError MisConfiguredError "Providing a user is required"))
  ∧ (boundTruthy (user s) = true → forallb supportedModel changeSet = false →
     validation (AnInstance s) action changeSet
     = Throw (calledWithoutNew InvalidChangeSetError))
  ∧ (boundTruthy (user s) = true → forallb supportedModel changeSet = true →
     truthy action && includesKey action = false →
     validation (AnInstance s) action changeSet
     = Throw (calledWithoutNew InvalidActionError))
  ∧ (boundTruthy (user s) = true → forallb supportedModel changeSet = true →
     truthy action && includesKey action = true →
     validation (AnInstance s) action changeSet = checkCardinality action changeSet).
Proof.
  unfold validation, verifyArguments, checkAction, readUser.
  repeat split; intros; cbn;
    repeat match goal with H : _ = _ :> bool |- _ => rewrite H; clear H end; reflexivity.
Qed.

Lemma validation_order_witness :
  (boundTruthy (user anonymous) = false
   ∧ validation (AnInstance anonymous) (SStr "ARCHIVE") [JObject ∅]
     = Throw (DriveError MisConfiguredError "Providing a user is required"))
  ∧ (boundTruthy (user loggedIn) = true
     ∧ forallb supportedModel [JObject ∅] = false
     ∧ validation (AnInstance loggedIn) (SStr "ARCHIVE") [JObject ∅]
       = Throw (calledWithoutNew InvalidChangeSetError))
  ∧ (forallb supportedModel [JModel deliverySettings; JModel feeByDistance] = true
     ∧ truthy (SStr "ARCHIVE") && includesKey (SStr "ARCHIVE") = false
     ∧ validation (AnInstance loggedIn) (SStr "ARCHIVE")
         [JModel deliverySettings; JModel feeByDistance]
       = Throw (calledWithoutNew InvalidActionError)).
Proof.
  split; [split; [reflexivity|] | split; [split; [reflexivity | split; [reflexivity|]]
                                        | split; [reflexivity | split; [reflexivity|]]]].
  - exact (proj1 (validation_order anonymous (SStr "ARCHIVE") [JObject ∅]) eq_refl).
  - exact (proj1 (proj2 (validation_order loggedIn (SStr "ARCHIVE") [JObject ∅]))
             eq_refl eq_refl).
  - exact (proj1 (proj2 (proj2 (validation_order loggedIn (SStr "ARCHIVE")
                                  [JModel deliverySettings; JModel feeByDistance])))
             eq_refl eq_refl eq_refl).
Defined.

(** C4 as stated fails: with an actor bound, an action outside the
    three keys and an unsupported member, it is the member check that
    fails, and the error is not the invalid-action one; [execute] itself
    stops even earlier. *)
Lemma invalid_action_masked_by_member_check :
  validation (AnInstance loggedIn) (SStr "ARCHIVE") [JObject ∅]
    = Throw (calledWithoutNew InvalidChangeSetError)
  ∧ errorClass (calledWithoutNew InvalidChangeSetError) ≠ InvalidActionError
  ∧ (execute sampleImports loggedIn (SStr "ARCHIVE") [JObject ∅] true emptyWorld).2
    = Throw privateMemberMissing
  ∧ errorClass privateMemberMissing ≠ InvalidActionError.
Proof.
  split; [reflexivity|].
  split; [discriminate|].
  split; [reflexivity | discriminate].
Qed.

(** C8, as amended: run on an instance with an actor bound and every
    member a model instance, the cardinality guard turns down a CREATE
    or DELETE change-set exactly when it has more than one member, and
    then nothing that follows the checks, the opening of the transaction
    and every write included, is run; a change-set with no member passes
    the checks, like one with a single member. *)
Theorem cardinality_guard (s : AuditLogService) (action : scalar)
    (changeSet : list jsval) (rest : unit → M unit) (w : world) :
  boundTruthy (user s) = true →
  forallb supportedModel changeSet = true →
  action ∈ [SStr AUDIT_ACTIONS.CREATE; SStr AUDIT_ACTIONS.DELETE] →
  ((2 ≤ length changeSet)%nat →
   validation (AnInstance s) action changeSet
   = Throw (calledWithoutNew InvalidChangeSetError)
   ∧ (lift (validation (AnInstance s) action changeSet) ≫= rest) w
     = (w, Throw (calledWithoutNew InvalidChangeSetError)))
  ∧ ((length changeSet ≤ 1)%nat →
     validation (AnInstance s) action changeSet = Ok tt).
Proof.
  intros Hu Hsup Hact.
  assert (Hvalidation :
    validation (AnInstance s) action changeSet
    = if bool_decide (1 < length changeSet)
      then Throw (calledWithoutNew InvalidChangeSetError) else Ok tt).
  { unfold validation, verifyArguments, checkAction, checkCardinality, readUser. cbn.
    rewrite Hu, Hsup. cbn. rewrite (bool_decide_eq_true_2 _ Hact).
    apply elem_of_cons in Hact as [->| Hact]; [reflexivity|].
    apply elem_of_cons in Hact as [->| Hact]; [reflexivity|].
    by apply elem_of_nil in Hact. }
  split.
  - intros Hmany. rewrite Hvalidation, bool_decide_eq_true_2 by lia. done.
  - intros Hfew. rewrite Hvalidation, bool_decide_eq_false_2 by lia. done.
Qed.

Lemma cardinality_guard_witness :
  (boundTruthy (user loggedIn) = true
   ∧ forallb supportedModel [JModel deliverySettings; JModel feeByDistance] = true
   ∧ SStr AUDIT_ACTIONS.DELETE ∈ [SStr AUDIT_ACTIONS.CREATE; SStr AUDIT_ACTIONS.DELETE]
   ∧ (2 ≤ length [JModel deliverySettings; JModel feeByDistance])%nat
   ∧ (length [JModel deliverySettings] ≤ 1)%nat)
  ∧ validation (AnInstance loggedIn) (SStr AUDIT_ACTIONS.DELETE)
      [JModel deliverySettings; JModel feeByDistance]
    = Throw (calledWithoutNew InvalidChangeSetError)
  ∧ validation (AnInstance loggedIn) (SStr AUDIT_ACTIONS.DELETE) [JModel deliverySettings]
    = Ok tt.
Proof.
  assert (Hact : SStr AUDIT_ACTIONS.DELETE
                 ∈ [SStr AUDIT_ACTIONS.CREATE; SStr AUDIT_ACTIONS.DELETE]).
  { apply elem_of_cons. right. apply elem_of_cons. by left. }
  assert (Hmany : (2 ≤ length [JModel deliverySettings; JModel feeByDistance])%nat).
  { cbn. lia. }
  assert (Hfew : (length [JModel deliverySettings] ≤ 1)%nat).
  { cbn. lia. }
  split; [exact (conj eq_refl (conj eq_refl (conj Hact (conj Hmany Hfew))))|].
  split.
  - exact (proj1 (proj1 (cardinality_guard loggedIn (SStr AUDIT_ACTIONS.DELETE)
                           [JModel deliverySettings; JModel feeByDistance]
                           (λ _, mret tt) emptyWorld eq_refl eq_refl Hact) Hmany)).
  - exact (proj2 (cardinality_guard loggedIn (SStr AUDIT_ACTIONS.DELETE)
                    [JModel deliverySettings] (λ _, mret tt) emptyWorld
                    eq_refl eq_refl Hact) Hfew).
Defined.

(** C8 as stated fails: a CREATE or DELETE change-set with no member
    passes every check, and the error [execute] raises for it is not
    the invalid-change-set one. *)
Lemma empty_change_set_passes_validation :
  validation (AnInstance loggedIn) (SStr AUDIT_ACTIONS.CREATE) [] = Ok tt
  ∧ validation (AnInstance loggedIn) (SStr AUDIT_ACTIONS.DELETE) [] = Ok tt
  ∧ (execute sampleImports loggedIn (SStr AUDIT_ACTIONS.CREATE) [] true emptyWorld).2
    = Throw privateMemberMissing
  ∧ errorClass privateMemberMissing ≠ InvalidChangeSetError.
Proof.
  split; [reflexivity|].
  split; [reflexivity|].
  split; [reflexivity | discriminate].
Qed.

(** ** The update path *)

Lemma auditsOf_app (tr1 tr2 : list event) :
  auditsOf (tr1 ++ tr2) = auditsOf tr1 ++ auditsOf tr2.
Proof. apply omap_app. Qed.

Lemma filterChanged_models (records : list Model) :
  filterChanged (JModel <$> records) = Ok (filter (λ m, is_Some (changed m)) records).
Proof.
  induction records as [|m rest IH]; [done|].
  cbn. rewrite IH. cbn. by destruct (changed m).
Qed.

Lemma filter_dirty_idemp (records : list Model) :
  filter (λ m, is_Some (changed m)) (filter (λ m, is_Some (changed m)) records)
  = filter (λ m, is_Some (changed m)) records.
Proof.
  induction records as [|m rest IH]; [done|].
  rewrite filter_cons. case_decide as Hm; [| exact IH].
  rewrite filter_cons, decide_True by done. by rewrite IH.
Qed.

Lemma filter_clean (records : list Model) :
  Forall (λ m, changed m = None) records →
  filter (λ m, is_Some (changed m)) records = [].
Proof.
  induction 1 as [|m rest Hm _ IH]; [done|].
  rewrite filter_cons, decide_False; [done|].
  rewrite Hm. by intros [? ?].
Qed.

Lemma collectValues_old (model : Model) (fields : list string)
    (acc : gmap string scalar * gmap string scalar) (f : string) :
  (foldl (λ acc fieldName,
            (<[fieldName := previous model fieldName]> (acc.1),
             <["[object Object]" := get model fieldName]> (acc.2)))
         acc fields).1 !! f
  = if decide (f ∈ fields) then Some (previous model f) else acc.1 !! f.
Proof.
  revert acc. induction fields as [|x rest IH]; intros acc.
  - cbn. rewrite decide_False; [done|]. apply not_elem_of_nil.
  - cbn. rewrite IH. cbn.
    destruct (decide (f ∈ rest)) as [Hin|Hnin].
    + rewrite decide_True; [done|]. by apply elem_of_cons; right.
    + destruct (decide (x = f)) as [->|Hne].
      * rewrite lookup_insert_eq, decide_True; [done|]. by apply elem_of_cons; left.
      * rewrite lookup_insert_ne by done.
        rewrite decide_False; [done|].
        intros [->|?]%elem_of_cons; done.
Qed.

Lemma mapM_auditForField (env : imports) (uuidString : N) (tableName : scalar)
    (model : Model) (oldValue newValue : gmap string scalar) (changedBy : scalar)
    (fields : list string) (w : world) :
  mapM (auditForField env uuidString tableName model oldValue newValue changedBy) fields w
  = match fields with
    | [] => (w, Ok [])
    | _ :: _ => (w, Throw (ReferenceError "newLabel"))
    end.
Proof. by destruct fields. Qed.

Lemma modelUpdateReducer_run (env : imports) (uuidString : N) (changedBy : scalar)
    (promises : list pitem) (model : Model) (w : world) :
  modelUpdateReducer env uuidString changedBy promises model w
  = match changed model with
    | None => (w, Throw (TypeError "model.changed(...).map is not a function"))
    | Some [] =>
        ({| trace := trace w ++ [EvSave model]; minted := minted w |},
         Ok (promises ++ [PPromise (saveOutcome model)]))
    | Some (_ :: _) => (w, Throw (ReferenceError "newLabel"))
    end.
Proof.
  unfold modelUpdateReducer. destruct (changed model) as [[|f fields]|]; reflexivity.
Qed.

(** The reducer never writes an audit entry and never mints an
    identifier. *)
Lemma reduce_updates_audits (env : imports) (uuidString : N) (changedBy : scalar)
    (records : list Model) (acc : list pitem) (w : world) :
  auditsOf (trace (reduceM (modelUpdateReducer env uuidString changedBy) acc records w).1)
  = auditsOf (trace w)
  ∧ minted (reduceM (modelUpdateReducer env uuidString changedBy) acc records w).1 = minted w.
Proof.
  revert acc w. induction records as [|m rest IH]; intros acc w; [done|].
  cbn. unfold mbind, M_bind, bind.
  rewrite modelUpdateReducer_run.
  destruct (changed m) as [[|f fields]|]; [| done | done].
  destruct (IH (acc ++ [PPromise (saveOutcome m)])
               {| trace := trace w ++ [EvSave m]; minted := minted w |}) as [-> ->].
  cbn. rewrite auditsOf_app. cbn. by rewrite app_nil_r.
Qed.

Lemma updateChangeSetExecutable_run (env : imports) (records : list Model)
    (changedBy : scalar) (promises : list pitem) (w : world) :
  updateChangeSetExecutable env (JModel <$> records) changedBy promises w
  = match reduceM (modelUpdateReducer env (uuidv4 env (minted w)) changedBy) []
            (filter (λ m, is_Some (changed m)) records)
            {| trace := trace w; minted := S (minted w) |} with
    | (w', Ok updates) => (w', Ok (promises ++ [PArray updates]))
    | (w', Throw e) => (w', Throw e)
    end.
Proof.
  unfold updateChangeSetExecutable.
  rewrite filterChanged_models. reflexivity.
Qed.

(** X24: records that report no dirty field are dropped before the
    reducer runs, so they add nothing and raise nothing, and a
    change-set made only of such records yields an empty batch; the
    [oldValue] object the builder prepares for a record maps each of its
    dirty fields, and no other, to the value last persisted for it. *)
Theorem update_skips_clean_records (env : imports) (records : list Model)
    (changedBy : scalar) (promises : list pitem) (w : world)
    (model : Model) (fields : list string) (f : string) :
  updateChangeSetExecutable env (JModel <$> records) changedBy promises w
  = updateChangeSetExecutable env
      (JModel <$> filter (λ m, is_Some (changed m)) records) changedBy promises w
  ∧ (Forall (λ m, changed m = None) records →
     updateChangeSetExecutable env (JModel <$> records) changedBy promises w
     = ({| trace := trace w; minted := S (minted w) |}, Ok (promises ++ [PArray []])))
  ∧ (collectValues model fields).1 !! f
    = (if decide (f ∈ fields) then Some (previous model f) else None).
Proof.
  split; [| split].
  - by rewrite !updateChangeSetExecutable_run, filter_dirty_idemp.
  - intros Hclean. by rewrite updateChangeSetExecutable_run, (filter_clean _ Hclean).
  - unfold collectValues. by rewrite collectValues_old.
Qed.

Lemma update_skips_clean_records_witness :
  Forall (λ m, changed m = None) [feeByDistance]
  ∧ updateChangeSetExecutable sampleImports (JModel <$> [feeByDistance]) (SNum 13) []
      emptyWorld
    = ({| trace := []; minted := 1 |}, Ok [PArray []]).
Proof.
  assert (Hclean : Forall (λ m, changed m = None) [feeByDistance]).
  { constructor; [reflexivity | constructor]. }
  split; [exact Hclean|].
  exact (proj1 (proj2 (update_skips_clean_records sampleImports [feeByDistance] (SNum 13) []
                         emptyWorld feeByDistance [] "feeCents")) Hclean).
Defined.

(** C5, a defect of the code: for the README's delivery settings, a
    record with two dirty fields, the update closure raises a
    ReferenceError while it builds the first audit literal, having
    issued nothing: no audit entry is written where the claim counts
    two, and the record is not saved.  The values it had prepared are
    not per field either: [oldValue] is one object holding the
    last-persisted values of both dirty fields, and [newValue] one
    object whose single property, named "[object Object]", holds the
    current value of the last dirty field. *)
Theorem update_writes_no_entry_for_dirty_fields (env : imports) (changedBy : scalar)
    (promises : list pitem) (w : world) :
  dirtyCount deliverySettings = 2
  ∧ (∃ e : exn,
       updateChangeSetExecutable env [JModel deliverySettings] changedBy promises w
       = ({| trace := trace w; minted := S (minted w) |}, Throw e)
       ∧ errorClass e = "ReferenceError")
  ∧ (collectValues deliverySettings ["deliveryRangeMiles"; "offerDeliveryTradeIn"]).1
    = {[ "deliveryRangeMiles" := SNum 50; "offerDeliveryTradeIn" := SNum 0 ]}
  ∧ (collectValues deliverySettings ["deliveryRangeMiles"; "offerDeliveryTradeIn"]).2
    = {[ "[object Object]" := SNum 1 ]}.
Proof.
  split; [reflexivity|]. split; [| split; vm_compute; reflexivity].
  exists (ReferenceError "newLabel"). split; [| reflexivity].
  change [JModel deliverySettings] with (JModel <$> [deliverySettings]).
  by rewrite updateChangeSetExecutable_run.
Qed.

(** ** The create path *)

(** C6, a defect of the code: no CREATE execution succeeds, so the
    entry the claim describes is never produced.  The exported [create]
    raises a TypeError and leaves the world untouched; run against the
    [execute] of an instance it stops at the private read; planning the
    CREATE of the object it builds raises whatever the table; and the
    closure [createModel] was meant to return raises at
    [createRow.then], before the row is created and before any audit
    entry is built. *)
Theorem create_never_succeeds (env : imports) (this : AuditLogService)
    (tableName changedBy : scalar) (data : gmap string scalar) (model : ModelClass)
    (promises : list pitem) (manageTransaction : bool) (w : world) :
  exports.create tableName data manageTransaction w
    = (w, Throw (TypeError "AuditLogService.execute is not a function"))
  ∧ exports.createOn (execute env this) tableName data manageTransaction w
    = (w, Throw privateMemberMissing)
  ∧ (∃ e : exn,
       executablesFor env this (SStr AUDIT_ACTIONS.CREATE)
         [JObject (<["tableName" := tableName]> data)] = Throw e)
  ∧ call env (CreateExecutable model tableName (JObject (<["tableName" := tableName]> data))
                changedBy) promises w
    = (w, Throw (TypeError "createRow.then is not a function")).
Proof.
  split; [reflexivity|]. split; [reflexivity|]. split; [| reflexivity].
  unfold executablesFor. cbn -[createModel].
  destruct (readUserId (user this)) as [actor|e]; cbn -[createModel]; [| by eexists].
  destruct (createModel_raises env (JObject (<["tableName" := tableName]> data)) actor)
    as [e ->].
  by eexists.
Qed.

(** ** Labels *)

(** C9, a defect of the code: on the update path the label
    expressions of the audit literal raise instead of yielding null.
    For every record, with or without a translation capability, building
    the entry of a dirty field raises a ReferenceError, so the reducer
    raises for every record that reports a dirty field and writes no
    entry, with null labels or otherwise. *)
Theorem update_label_expressions_raise (env : imports) (uuidString : N) (model : Model)
    (changedBy : scalar) (promises : list pitem) (f : string) (fields : list string)
    (oldValue newValue : gmap string scalar) (w : world) :
  changed model = Some (f :: fields) →
  (∃ e : exn,
     auditForField env uuidString (tableName model) model oldValue newValue changedBy f w
     = (w, Throw e)
     ∧ errorClass e = "ReferenceError")
  ∧ (∃ e : exn,
       modelUpdateReducer env uuidString changedBy promises model w = (w, Throw e)
       ∧ errorClass e = "ReferenceError").
Proof.
  intros Hdirty. split.
  - exists (ReferenceError "newLabel"). by split.
  - exists (ReferenceError "newLabel"). split; [| reflexivity].
    by rewrite modelUpdateReducer_run, Hdirty.
Qed.

Lemma update_label_expressions_raise_witness :
  (labelProvider deliverySettings = None
   ∧ changed deliverySettings = Some ["deliveryRangeMiles"; "offerDeliveryTradeIn"])
  ∧ ∃ e : exn,
      modelUpdateReducer sampleImports 0%N (SNum 13) [] deliverySettings emptyWorld
      = (emptyWorld, Throw e)
      ∧ errorClass e = "ReferenceError".
Proof.
  split; [exact (conj eq_refl eq_refl)|].
  exact (proj2 (update_label_expressions_raise sampleImports 0%N deliverySettings (SNum 13) []
                  "deliveryRangeMiles" ["offerDeliveryTradeIn"] ∅ ∅ emptyWorld eq_refl)).
Defined.

(** * Further properties of the service *)

(** ** The static receiver *)

(** X1: [verifyArguments] is static and reads [this.#user], so every
    path that calls it on the class stops there: [execute] raises the
    TypeError for every instance, action, change-set and flag without
    opening a transaction or writing anything, the exported wrappers
    run against it do the same, and [destroyModel] raises it for every
    record. *)
Theorem static_receiver_blocks_execute_and_destroy (env : imports)
    (this : AuditLogService) (action tableName changedBy : scalar)
    (changeSet : list jsval) (data : gmap string scalar) (model : jsval)
    (manageTransaction : bool) (w : world) :
  execute env this action changeSet manageTransaction w = (w, Throw privateMemberMissing)
  ∧ exports.createOn (execute env this) tableName data manageTransaction w
    = (w, Throw privateMemberMissing)
  ∧ exports.updateOn (execute env this) changeSet manageTransaction w
    = (w, Throw privateMemberMissing)
  ∧ destroyModel model changedBy = Throw privateMemberMissing
  ∧ errorClass privateMemberMissing = "TypeError".
Proof.
  split; [reflexivity|]. split; [reflexivity|]. split; [reflexivity|].
  split; reflexivity.
Qed.

(** ** The checks of execute *)

Lemma includesKey_spec (action : scalar) :
  includesKey action = true ↔ ∃ s, action = SStr s ∧ s ∈ AUDIT_ACTIONS.keys.
Proof.
  split.
  - destruct action as [| |b|n|s]; cbn; try discriminate.
    intros Hs%bool_decide_eq_true_1. by exists s.
  - intros (s & -> & Hs). cbn. by apply bool_decide_eq_true_2.
Qed.

Lemma key_truthy (s : string) : s ∈ AUDIT_ACTIONS.keys → truthy (SStr s) = true.
Proof.
  intros Hs. repeat (apply elem_of_cons in Hs as [->|Hs]; [reflexivity|]).
  by apply elem_of_nil in Hs.
Qed.

(** X2: the action check lets through exactly the three strings
    "CREATE", "DELETE" and "UPDATE", compared as they are: any other
    string, and any value that is not a string, is turned down, by a
    TypeError since the error class is called without [new]. *)
Theorem checkAction_accepts_exactly_keys (action : scalar) :
  (checkAction action = Ok tt
   ↔ action ∈ [SStr "CREATE"; SStr "DELETE"; SStr "UPDATE"])
  ∧ (checkAction action = Ok tt
     ∨ checkAction action = Throw (calledWithoutNew InvalidActionError)).
Proof.
  split.
  - change [SStr "CREATE"; SStr "DELETE"; SStr "UPDATE"] with (SStr <$> AUDIT_ACTIONS.keys).
    rewrite list_elem_of_fmap. unfold checkAction.
    destruct (truthy action && includesKey action) eqn:Hvalid; cbn.
    + apply andb_prop in Hvalid as [_ (s & -> & Hs)%includesKey_spec].
      split; [| done]. intros _. by exists s.
    + split; [done|]. intros (s & -> & Hs).
      rewrite (key_truthy _ Hs) in Hvalid. cbn in Hvalid.
      by rewrite (bool_decide_eq_true_2 _ Hs) in Hvalid.
  - unfold checkAction. destruct (truthy action && includesKey action); cbn; auto.
Qed.

Lemma checkAction_accepts_exactly_keys_witness :
  SStr "UPDATE" ∈ [SStr "CREATE"; SStr "DELETE"; SStr "UPDATE"]
  ∧ checkAction (SStr "UPDATE") = Ok tt.
Proof.
  assert (Hin : SStr "UPDATE" ∈ [SStr "CREATE"; SStr "DELETE"; SStr "UPDATE"]).
  { do 2 (apply elem_of_cons; right). apply elem_of_cons. by left. }
  split; [exact Hin|].
  exact (proj2 (proj1 (checkAction_accepts_exactly_keys (SStr "UPDATE"))) Hin).
Defined.

(** X3: the cardinality guard turns down a change-set exactly when the
    action is CREATE or DELETE and the change-set has two members or
    more; UPDATE change-sets of any size, the empty one included, and
    empty or one-member change-sets of any action pass. *)
Theorem checkCardinality_rejects_exactly (action : scalar) (changeSet : list jsval) :
  (checkCardinality action changeSet = Throw (calledWithoutNew InvalidChangeSetError)
   ↔ action ∈ [SStr "CREATE"; SStr "DELETE"] ∧ (2 ≤ length changeSet)%nat)
  ∧ (checkCardinality action changeSet = Ok tt
     ↔ ¬ (action ∈ [SStr "CREATE"; SStr "DELETE"] ∧ (2 ≤ length changeSet)%nat)).
Proof.
  unfold checkCardinality.
  change [SStr AUDIT_ACTIONS.CREATE; SStr AUDIT_ACTIONS.DELETE]
    with [SStr "CREATE"; SStr "DELETE"].
  destruct (bool_decide (action ∈ [SStr "CREATE"; SStr "DELETE"])) eqn:Hact;
    [apply bool_decide_eq_true_1 in Hact | apply bool_decide_eq_false_1 in Hact].
  - destruct (bool_decide (1 < length changeSet)) eqn:Hlen;
      [apply bool_decide_eq_true_1 in Hlen | apply bool_decide_eq_false_1 in Hlen].
    + split; split.
      * intros _. split; [done | lia].
      * done.
      * discriminate.
      * intros Hnot. destruct Hnot. split; [done | lia].
    + split; split.
      * discriminate.
      * intros [_ Hge]. lia.
      * intros _ [_ Hge]. lia.
      * done.
  - split; split.
    + discriminate.
    + by intros [Hin _].
    + by intros _ [Hin _].
    + done.
Qed.

Lemma checkCardinality_rejects_exactly_witness :
  (SStr "DELETE" ∈ [SStr "CREATE"; SStr "DELETE"]
   ∧ (2 ≤ length [JModel deliverySettings; JModel feeByDistance])%nat)
  ∧ checkCardinality (SStr "DELETE") [JModel deliverySettings; JModel feeByDistance]
    = Throw (calledWithoutNew InvalidChangeSetError).
Proof.
  assert (Hin : SStr "DELETE" ∈ [SStr "CREATE"; SStr "DELETE"]).
  { apply elem_of_cons; right. apply elem_of_cons. by left. }
  assert (Hlen : (2 ≤ length [JModel deliverySettings; JModel feeByDistance])%nat).
  { cbn. lia. }
  split; [exact (conj Hin Hlen)|].
  exact (proj2 (proj1 (checkCardinality_rejects_exactly (SStr "DELETE")
                         [JModel deliverySettings; JModel feeByDistance]))
           (conj Hin Hlen)).
Defined.

Lemma supportedModel_all (changeSet : list jsval) :
  forallb supportedModel changeSet = true ↔ ∀ v, v ∈ changeSet → ∃ m, v = JModel m.
Proof.
  rewrite forallb_forall. split; intros Hall v Hv.
  - apply list_elem_of_In in Hv. specialize (Hall v Hv).
    destruct v as [x|o|m]; try discriminate. by exists m.
  - apply list_elem_of_In in Hv. by destruct (Hall v Hv) as [m ->].
Qed.

Lemma supportedModel_models (changeSet : list jsval) :
  forallb supportedModel changeSet = true → ∃ records, changeSet = JModel <$> records.
Proof.
  induction changeSet as [|v rest IH]; [by exists []|].
  cbn. intros [Hv Hrest]%andb_prop. destruct (IH Hrest) as [records ->].
  destruct v as [x|o|m]; try discriminate. by exists (m :: records).
Qed.

(** X4: run on an instance, the checks made before a transaction is
    opened accept a request exactly when a truthy user is bound, every
    member of the change-set is a model instance, the action is one of
    the three keys, and the change-set has at most one member unless
    the action is UPDATE. *)
Theorem validation_accepts_exactly (s : AuditLogService) (action : scalar)
    (changeSet : list jsval) :
  validation (AnInstance s) action changeSet = Ok tt
  ↔ boundTruthy (user s) = true
    ∧ (∀ v, v ∈ changeSet → ∃ m, v = JModel m)
    ∧ action ∈ [SStr "CREATE"; SStr "DELETE"; SStr "UPDATE"]
    ∧ (action = SStr "UPDATE" ∨ (length changeSet ≤ 1)%nat).
Proof.
  unfold validation, verifyArguments, readUser. cbn.
  destruct (boundTruthy (user s)) eqn:Hu; cbn;
    [| split; [discriminate | by intros (? & _)]].
  destruct (forallb supportedModel changeSet) eqn:Hsup; cbn.
  2: { split; [discriminate|]. intros (_ & Hall & _).
       apply (proj2 (supportedModel_all changeSet)) in Hall. congruence. }
  pose proof (proj1 (supportedModel_all changeSet) Hsup) as Hall.
  change [SStr "CREATE"; SStr "DELETE"; SStr "UPDATE"] with (SStr <$> AUDIT_ACTIONS.keys).
  unfold checkAction.
  destruct (truthy action && includesKey action) eqn:Hvalid; cbn.
  - apply andb_prop in Hvalid as [_ (k & -> & Hk)%includesKey_spec].
    assert (Hin : SStr k ∈ SStr <$> AUDIT_ACTIONS.keys).
    { apply list_elem_of_fmap. by exists k. }
    unfold checkCardinality.
    repeat (apply elem_of_cons in Hk as [->|Hk]); [| | | by apply elem_of_nil in Hk].
    + change (bool_decide (SStr AUDIT_ACTIONS.CREATE ∈ _)) with true. cbn.
      case_bool_decide as Hlen.
      * split; [discriminate|].
        intros (_ & _ & _ & [Hupd|Hle]); [discriminate Hupd | lia].
      * split; [| done]. intros _. repeat split; try done. right. lia.
    + change (bool_decide (SStr AUDIT_ACTIONS.DELETE ∈ _)) with true. cbn.
      case_bool_decide as Hlen.
      * split; [discriminate|].
        intros (_ & _ & _ & [Hupd|Hle]); [discriminate Hupd | lia].
      * split; [| done]. intros _. repeat split; try done. right. lia.
    + change (bool_decide (SStr AUDIT_ACTIONS.UPDATE ∈ _)) with false. cbn.
      split; [| done]. intros _. repeat split; try done. by left.
  - split; [discriminate|]. intros (_ & _ & Hact & _).
    change (action ∈ SStr <$> AUDIT_ACTIONS.keys) in Hact.
    apply list_elem_of_fmap in Hact as (k & -> & Hk).
    rewrite (key_truthy _ Hk) in Hvalid. cbn in Hvalid.
    by rewrite (bool_decide_eq_true_2 _ Hk) in Hvalid.
Qed.

Lemma validation_accepts_exactly_witness :
  (boundTruthy (user loggedIn) = true
   ∧ (∀ v, v ∈ [JModel deliverySettings; JModel feeByDistance] → ∃ m, v = JModel m)
   ∧ SStr "UPDATE" ∈ [SStr "CREATE"; SStr "DELETE"; SStr "UPDATE"]
   ∧ (SStr "UPDATE" = SStr "UPDATE"
      ∨ (length [JModel deliverySettings; JModel feeByDistance] ≤ 1)%nat))
  ∧ validation (AnInstance loggedIn) (SStr "UPDATE")
      [JModel deliverySettings; JModel feeByDistance] = Ok tt.
Proof.
  assert (Hall : ∀ v, v ∈ [JModel deliverySettings; JModel feeByDistance]
                      → ∃ m, v = JModel m).
  { intros v Hv. apply elem_of_cons in Hv as [->|Hv]; [by eexists|].
    apply elem_of_cons in Hv as [->|Hv]; [by eexists|]. by apply elem_of_nil in Hv. }
  assert (Hin : SStr "UPDATE" ∈ [SStr "CREATE"; SStr "DELETE"; SStr "UPDATE"]).
  { do 2 (apply elem_of_cons; right). apply elem_of_cons. by left. }
  split; [exact (conj eq_refl (conj Hall (conj Hin (or_introl eq_refl))))|].
  exact (proj2 (validation_accepts_exactly loggedIn (SStr "UPDATE")
                  [JModel deliverySettings; JModel feeByDistance])
           (conj eq_refl (conj Hall (conj Hin (or_introl eq_refl))))).
Defined.

(** X5: a change-set that [verifyArguments] accepts on an instance is a
    list of model instances, so the filter of the update closure cannot
    raise on it: it keeps, in order, exactly the records whose
    [changed()] is not [false]. *)
Theorem accepted_change_set_filters (s : AuditLogService) (changeSet : list jsval) :
  verifyArguments (AnInstance s) changeSet = Ok tt →
  ∃ records : list Model,
    changeSet = JModel <$> records
    ∧ filterChanged changeSet = Ok (filter (λ m, is_Some (changed m)) records).
Proof.
  unfold verifyArguments, readUser. cbn.
  destruct (boundTruthy (user s)); cbn; [| discriminate].
  destruct (forallb supportedModel changeSet) eqn:Hsup; cbn; [| discriminate].
  intros _. destruct (supportedModel_models _ Hsup) as [records ->].
  exists records. split; [done|]. apply filterChanged_models.
Qed.

Lemma accepted_change_set_filters_witness :
  verifyArguments (AnInstance loggedIn) [JModel deliverySettings; JModel feeByDistance]
    = Ok tt
  ∧ ∃ records : list Model,
      [JModel deliverySettings; JModel feeByDistance] = JModel <$> records
      ∧ filterChanged [JModel deliverySettings; JModel feeByDistance]
        = Ok (filter (λ m, is_Some (changed m)) records).
Proof.
  split; [reflexivity|].
  exact (accepted_change_set_filters loggedIn
           [JModel deliverySettings; JModel feeByDistance] eq_refl).
Defined.

(** X6: the change-set the exported [create] builds holds one plain
    object, the supplied attributes with [tableName] added, and a plain
    object is not a model instance: with a user bound, the checks turn
    it down at the member-support check, whatever the table name and
    the attributes. *)
Theorem create_wrapper_change_set_is_unsupported (s : AuditLogService)
    (tableName : scalar) (data : gmap string scalar) (manageTransaction : bool)
    (w : world) :
  boundTruthy (user s) = true →
  exports.createOn (λ action changeSet _, lift (validation (AnInstance s) action changeSet))
    tableName data manageTransaction w
  = (w, Throw (calledWithoutNew InvalidChangeSetError)).
Proof.
  intros Hu. unfold exports.createOn, lift, validation, verifyArguments, readUser.
  cbn. by rewrite Hu.
Qed.

Lemma create_wrapper_change_set_is_unsupported_witness :
  boundTruthy (user loggedIn) = true
  ∧ exports.createOn
      (λ action changeSet _, lift (validation (AnInstance loggedIn) action changeSet))
      (SStr "DeliveryFeeByDistance") suppliedFee true emptyWorld
    = (emptyWorld, Throw (calledWithoutNew InvalidChangeSetError)).
Proof.
  split; [reflexivity|].
  exact (create_wrapper_change_set_is_unsupported loggedIn (SStr "DeliveryFeeByDistance")
           suppliedFee true emptyWorld eq_refl).
Defined.

(** ** Planning the work *)

(** X7: [createModel] never returns its closure.  It raises a
    ReferenceError exactly when the table name read from the data names
    a registered model, and a TypeError otherwise (data that is
    [undefined] or [null], or an unknown table, whose error class is
    called without [new]); the unknown-table error itself is never
    raised. *)
Theorem createModel_never_returns (env : imports) (data : jsval) (changedBy : scalar) :
  ∃ e : exn,
    createModel env data changedBy = Throw e
    ∧ (errorClass e = "ReferenceError"
       ↔ ∃ tableName model,
           destructureTableName data = Ok tableName
           ∧ DBModels env (propertyKey tableName) = Some model)
    ∧ (errorClass e = "ReferenceError" ∨ errorClass e = "TypeError").
Proof.
  unfold createModel.
  destruct (destructureTableName data) as [tableName|e] eqn:Htable; cbn.
  - destruct (DBModels env (propertyKey tableName)) as [model|] eqn:Hmodel; cbn.
    + eexists. split; [reflexivity|]. split; [| by left].
      split; [| done]. intros _. by exists tableName, model.
    + eexists. split; [reflexivity|]. split; [| by right].
      split; [discriminate|]. intros (tableName' & model & [= <-] & Hsome). congruence.
  - exists e. split; [reflexivity|].
    assert (He : errorClass e = "TypeError").
    { destruct data as [[| | | |]| |]; cbn in Htable; by inversion Htable. }
    split; [| by right]. rewrite He.
    split; [discriminate|]. by intros (? & ? & ? & _).
Qed.

(** X8: the only action for which planning hands back a closure is
    UPDATE, and the closure is the update closure over the whole
    change-set with the id of the bound user; CREATE and DELETE always
    raise while planning, and any action other than the three plans
    nothing. *)
Theorem only_update_is_planned (env : imports) (this : AuditLogService)
    (action : scalar) (changeSet : list jsval) :
  (∀ f : executable,
     executablesFor env this action changeSet = Ok (Some f) →
     action = SStr "UPDATE"
     ∧ ∃ changedBy : scalar,
         readUserId (user this) = Ok changedBy
         ∧ f = UpdateExecutable changeSet changedBy)
  ∧ (action ∈ [SStr "CREATE"; SStr "DELETE"] →
     ∃ e : exn, executablesFor env this action changeSet = Throw e)
  ∧ (action ∉ [SStr "CREATE"; SStr "DELETE"; SStr "UPDATE"] →
     executablesFor env this action changeSet = Ok None).
Proof.
  assert (Hcreate : ∃ e : exn,
            executablesFor env this (SStr "CREATE") changeSet = Throw e).
  { unfold executablesFor. cbn.
    destruct (readUserId (user this)) as [changedBy|e]; cbn; [| by eexists].
    destruct (createModel_raises env (default (JScalar SUndefined) (changeSet !! 0%nat))
                changedBy) as [e ->].
    by eexists. }
  assert (Hdelete : ∃ e : exn,
            executablesFor env this (SStr "DELETE") changeSet = Throw e).
  { unfold executablesFor. cbn.
    destruct (readUserId (user this)) as [changedBy|e]; cbn; by eexists. }
  split; [| split].
  - intros f. unfold executablesFor.
    destruct (decide (action = SStr AUDIT_ACTIONS.UPDATE)) as [->|_].
    + destruct (readUserId (user this)) as [changedBy|e]; cbn; [| discriminate].
      intros [= <-]. split; [done|]. by exists changedBy.
    + destruct (decide (action = SStr AUDIT_ACTIONS.CREATE)) as [->|_].
      * destruct (readUserId (user this)) as [changedBy|e]; cbn; [| discriminate].
        destruct (createModel_raises env
                    (default (JScalar SUndefined) (changeSet !! 0%nat)) changedBy)
          as [e ->].
        discriminate.
      * destruct (decide (action = SStr AUDIT_ACTIONS.DELETE)) as [->|_]; [| discriminate].
        destruct (readUserId (user this)) as [changedBy|e]; cbn; discriminate.
  - intros [->|Hin]%elem_of_cons; [exact Hcreate|].
    apply elem_of_cons in Hin as [->|Hin]; [exact Hdelete|]. by apply elem_of_nil in Hin.
  - intros Hother. unfold executablesFor.
    rewrite decide_False; [| intros ->; apply Hother; do 2 right; by left].
    rewrite decide_False; [| intros ->; apply Hother; by left].
    rewrite decide_False; [done|]. intros ->. apply Hother. right. by left.
Qed.

Lemma only_update_is_planned_witness :
  (executablesFor sampleImports loggedIn (SStr "UPDATE") [JModel deliverySettings]
   = Ok (Some (UpdateExecutable [JModel deliverySettings] (SNum 13)))
   ∧ SStr "DELETE" ∈ [SStr "CREATE"; SStr "DELETE"]
   ∧ SStr "ARCHIVE" ∉ [SStr "CREATE"; SStr "DELETE"; SStr "UPDATE"])
  ∧ SStr "UPDATE" = SStr "UPDATE"
  ∧ (∃ e : exn,
       executablesFor sampleImports loggedIn (SStr "DELETE") [JModel deliverySettings]
       = Throw e)
  ∧ executablesFor sampleImports loggedIn (SStr "ARCHIVE") [JModel deliverySettings]
    = Ok None.
Proof.
  assert (Hdelete : SStr "DELETE" ∈ [SStr "CREATE"; SStr "DELETE"]).
  { apply elem_of_cons; right. apply elem_of_cons. by left. }
  assert (Hother : SStr "ARCHIVE" ∉ [SStr "CREATE"; SStr "DELETE"; SStr "UPDATE"]).
  { intros Hin. repeat (apply elem_of_cons in Hin as [Heq|Hin]; [discriminate Heq|]).
    by apply elem_of_nil in Hin. }
  split; [exact (conj eq_refl (conj Hdelete Hother))|].
  split; [| split].
  - exact (proj1 (proj1 (only_update_is_planned sampleImports loggedIn (SStr "UPDATE")
                           [JModel deliverySettings])
                    (UpdateExecutable [JModel deliverySettings] (SNum 13)) eq_refl)).
  - exact (proj1 (proj2 (only_update_is_planned sampleImports loggedIn (SStr "DELETE")
                           [JModel deliverySettings])) Hdelete).
  - exact (proj2 (proj2 (only_update_is_planned sampleImports loggedIn (SStr "ARCHIVE")
                           [JModel deliverySettings])) Hother).
Defined.

(** ** The try/catch of execute, other paths *)

(** X9: when the transaction is left to the caller, the try/catch
    issues neither commit nor rollback: a success passes through
    untouched, and a failure is logged once and raised again unchanged. *)
Theorem settle_caller_managed (t : bound Transaction) (awaited : M unit) (w : world) :
  settle t false awaited w
  = match awaited w with
    | (w', Ok _) => (w', Ok tt)
    | (w', Throw e) =>
        ({| trace := trace w' ++ [EvLogError e]; minted := minted w' |}, Throw e)
    end.
Proof.
  unfold settle, tryCatch.
  unfold mbind at 1, M_bind at 1, bind at 1.
  destruct (awaited w) as [w' [[]|e]]; reflexivity.
Qed.

(** X10: when the awaited work succeeds and the transaction is managed
    internally, commit is issued once; if it resolves nothing else
    happens, and if it is rejected the rejection is logged, the same
    transaction is rolled back, and the commit's error is raised, or
    the rollback's when that fails too. *)
Theorem settle_success_commits (tx : Transaction) (awaited : M unit) (w w' : world) :
  awaited w = (w', Ok tt) →
  settle (BObject tx) true awaited w
  = match commitOutcome tx with
    | None => ({| trace := trace w' ++ [EvCommit tx]; minted := minted w' |}, Ok tt)
    | Some e =>
        ({| trace := trace w' ++ [EvCommit tx; EvLogError e; EvRollback tx];
            minted := minted w' |},
         Throw (default e (rollbackOutcome tx)))
    end.
Proof.
  intros Hawaited. unfold settle, tryCatch.
  unfold mbind at 1, M_bind at 1, bind at 1. rewrite Hawaited.
  destruct tx as [n [e|] [e'|]]; run_M; by rewrite <- ?app_assoc.
Qed.

Lemma settle_success_commits_witness :
  mret (M := M) tt emptyWorld = (emptyWorld, Ok tt)
  ∧ settle (BObject sampleTransaction) true (mret tt) emptyWorld
    = ({| trace := [EvCommit sampleTransaction]; minted := 0 |}, Ok tt).
Proof.
  split; [reflexivity|].
  exact (settle_success_commits sampleTransaction (mret tt) emptyWorld emptyWorld eq_refl).
Defined.

(** X11: what [execute] awaits is a closure that was never called, or
    [undefined], and neither is iterable: the awaited step always fails
    with a TypeError, so the try/catch never commits; it logs the error
    and, when it manages the transaction, rolls back. *)
Theorem awaited_work_never_commits (tx : Transaction) (manage : bool)
    (executables : option executable) (w : world) :
  ∃ e : exn,
    errorClass e = "TypeError"
    ∧ promiseAll executables w = (w, Throw e)
    ∧ settle (BObject tx) manage (promiseAll executables) w
      = ({| trace := trace w ++ EvLogError e :: (if manage then [EvRollback tx] else []);
            minted := minted w |},
         Throw (if manage then default e (rollbackOutcome tx) else e)).
Proof.
  destruct executables as [f|];
    [exists (TypeError "function is not iterable")
    | exists (TypeError "undefined is not iterable")];
    (split; [reflexivity|]); (split; [reflexivity|]).
  - destruct manage, tx as [n c [e'|]]; unfold settle, promiseAll; run_M;
      by rewrite <- ?app_assoc.
  - destruct manage, tx as [n c [e'|]]; unfold settle, promiseAll; run_M;
      by rewrite <- ?app_assoc.
Qed.

(** ** The update closure, other inputs *)

Lemma filter_dirty_head (records : list Model) :
  (∀ m, m ∈ records → changed m ≠ Some []) →
  (∃ m, m ∈ records ∧ is_Some (changed m)) →
  ∃ m f fields rest,
    filter (λ m, is_Some (changed m)) records = m :: rest
    ∧ changed m = Some (f :: fields).
Proof.
  induction records as [|m0 rest IH]; intros Hnonempty (m & Hm & Hdirty).
  - by apply elem_of_nil in Hm.
  - rewrite filter_cons. destruct (changed m0) as [[|f fields]|] eqn:Hm0.
    + exfalso. apply (Hnonempty m0); [by left | done].
    + rewrite decide_True by (by eexists).
      exists m0, f, fields. eexists. by split.
    + rewrite decide_False by (by intros [? ?]).
      apply IH.
      * intros m' Hm'. apply Hnonempty. by right.
      * apply elem_of_cons in Hm as [->|Hm]; [| by exists m].
        rewrite Hm0 in Hdirty. by destruct Hdirty.
Qed.

(** X12: whenever a change-set of records holds a record that reports
    dirty fields (and none reports an empty list of them), the update
    closure mints its identifier and then raises the ReferenceError of
    the audit literal before anything is issued: no audit entry is
    written and no record is saved. *)
Theorem update_with_dirty_record_raises (env : imports) (records : list Model)
    (changedBy : scalar) (promises : list pitem) (w : world) :
  (∀ m, m ∈ records → changed m ≠ Some []) →
  (∃ m, m ∈ records ∧ is_Some (changed m)) →
  updateChangeSetExecutable env (JModel <$> records) changedBy promises w
  = ({| trace := trace w; minted := S (minted w) |}, Throw (ReferenceError "newLabel")).
Proof.
  intros Hnonempty Hdirty.
  destruct (filter_dirty_head records Hnonempty Hdirty)
    as (m & f & fields & rest & Hfilter & Hm).
  rewrite updateChangeSetExecutable_run, Hfilter. cbn.
  unfold mbind, M_bind, bind. by rewrite modelUpdateReducer_run, Hm.
Qed.

Lemma update_with_dirty_record_raises_witness :
  ((∀ m, m ∈ [feeByDistance; deliverySettings] → changed m ≠ Some [])
   ∧ ∃ m, m ∈ [feeByDistance; deliverySettings] ∧ is_Some (changed m))
  ∧ updateChangeSetExecutable sampleImports (JModel <$> [feeByDistance; deliverySettings])
      (SNum 13) [] emptyWorld
    = ({| trace := []; minted := 1 |}, Throw (ReferenceError "newLabel")).
Proof.
  assert (Hnonempty : ∀ m, m ∈ [feeByDistance; deliverySettings] → changed m ≠ Some []).
  { intros m Hm. apply elem_of_cons in Hm as [->|Hm]; [discriminate|].
    apply elem_of_cons in Hm as [->|Hm]; [discriminate|]. by apply elem_of_nil in Hm. }
  assert (Hdirty : ∃ m, m ∈ [feeByDistance; deliverySettings] ∧ is_Some (changed m)).
  { exists deliverySettings. split; [apply elem_of_cons; right; apply elem_of_cons; by left|].
    by eexists. }
  split; [exact (conj Hnonempty Hdirty)|].
  exact (update_with_dirty_record_raises sampleImports [feeByDistance; deliverySettings]
           (SNum 13) [] emptyWorld Hnonempty Hdirty).
Defined.

Lemma collectValues_new (model : Model) (fields : list string)
    (acc : gmap string scalar * gmap string scalar) :
  (foldl (λ acc fieldName,
            (<[fieldName := previous model fieldName]> (acc.1),
             <["[object Object]" := get model fieldName]> (acc.2)))
         acc fields).2
  = match last fields with
    | None => acc.2
    | Some f => <["[object Object]" := get model f]> (acc.2)
    end.
Proof.
  revert acc. induction fields as [|x rest IH]; intros acc; [done|].
  cbn [foldl]. rewrite IH, last_cons. cbn.
  destruct (last rest) as [f|]; [| done]. by rewrite insert_insert_eq.
Qed.

(** X13: whatever the number of dirty fields, the [newValue] object the
    update reducer prepares has at most one property, named
    "[object Object]", holding the current value of the last dirty
    field; the new values of the other fields are overwritten. *)
Theorem collectValues_new_keeps_last_field (model : Model) (fields : list string) :
  (collectValues model fields).2
  = match last fields with
    | None => ∅
    | Some f => {[ "[object Object]" := get model f ]}
    end.
Proof.
  unfold collectValues. rewrite collectValues_new. cbn.
  destruct (last fields); [by rewrite insert_empty | done].
Qed.

Lemma filterChanged_unsupported (changeSet : list jsval) :
  forallb supportedModel changeSet = false →
  filterChanged changeSet = Throw (TypeError "model.changed is not a function").
Proof.
  induction changeSet as [|v rest IH]; [discriminate|].
  destruct v as [x|o|m]; cbn; [done | done |].
  intros Hrest. by rewrite (IH Hrest).
Qed.

(** X14: the update closure does not check its members itself: on a
    change-set holding anything that is not a model instance it mints
    its identifier and then raises a TypeError, with nothing saved and
    nothing audited, even when other members report dirty fields. *)
Theorem update_closure_rejects_non_models (env : imports) (changeSet : list jsval)
    (changedBy : scalar) (promises : list pitem) (w : world) :
  forallb supportedModel changeSet = false →
  updateChangeSetExecutable env changeSet changedBy promises w
  = ({| trace := trace w; minted := S (minted w) |},
     Throw (TypeError "model.changed is not a function")).
Proof.
  intros Hunsupported. unfold updateChangeSetExecutable.
  by rewrite (filterChanged_unsupported _ Hunsupported).
Qed.

Lemma update_closure_rejects_non_models_witness :
  forallb supportedModel [JModel deliverySettings; JObject suppliedFee] = false
  ∧ updateChangeSetExecutable sampleImports [JModel deliverySettings; JObject suppliedFee]
      (SNum 13) [] emptyWorld
    = ({| trace := []; minted := 1 |}, Throw (TypeError "model.changed is not a function")).
Proof.
  split; [reflexivity|].
  exact (update_closure_rejects_non_models sampleImports
           [JModel deliverySettings; JObject suppliedFee] (SNum 13) [] emptyWorld eq_refl).
Defined.

(** ** Primary keys *)

Lemma append_assoc (s1 s2 s3 : string) : (s1 +:+ s2) +:+ s3 = s1 +:+ s2 +:+ s3.
Proof.
  induction s1 as [|c s1 IH]; [done|].
  change (String c ((s1 +:+ s2) +:+ s3) = String c (s1 +:+ s2 +:+ s3)).
  by rewrite IH.
Qed.

Lemma getPrimaryKeyForModel_single (m : Model) (a : string) :
  primaryKeyAttributes m = [a] → getPrimaryKeyForModel m = joinElement (get m a).
Proof. unfold getPrimaryKeyForModel. by intros ->. Qed.

Lemma getPrimaryKeyForModel_pair (m : Model) (p q : string) :
  primaryKeyAttributes m = [p; q] →
  getPrimaryKeyForModel m = joinElement (get m p) +:+ "," +:+ joinElement (get m q).
Proof. unfold getPrimaryKeyForModel. by intros ->. Qed.

(** X15: the comma-joined encoding of a composite key cannot be read
    back: a row whose two key values are "a,b" and "c" and a row whose
    key values are "a" and "b,c" are recorded under the same
    [primaryKey], for any strings a, b and c. *)
Theorem primaryKey_composite_is_ambiguous (m1 m2 : Model) (p q a b c : string) :
  primaryKeyAttributes m1 = [p; q] →
  primaryKeyAttributes m2 = [p; q] →
  get m1 p = SStr (a +:+ "," +:+ b) → get m1 q = SStr c →
  get m2 p = SStr a → get m2 q = SStr (b +:+ "," +:+ c) →
  getPrimaryKeyForModel m1 = getPrimaryKeyForModel m2.
Proof.
  intros Hk1 Hk2 Hp1 Hq1 Hp2 Hq2.
  rewrite (getPrimaryKeyForModel_pair _ _ _ Hk1), (getPrimaryKeyForModel_pair _ _ _ Hk2).
  rewrite Hp1, Hq1, Hp2, Hq2. cbn [joinElement].
  by rewrite !append_assoc.
Qed.

Lemma primaryKey_composite_is_ambiguous_witness :
  (get (pairKeyed (SStr "north,7") (SStr "b")) "region" = SStr ("north" +:+ "," +:+ "7")
   ∧ get (pairKeyed (SStr "north") (SStr "7,b")) "code" = SStr ("7" +:+ "," +:+ "b"))
  ∧ getPrimaryKeyForModel (pairKeyed (SStr "north,7") (SStr "b"))
    = getPrimaryKeyForModel (pairKeyed (SStr "north") (SStr "7,b")).
Proof.
  split; [split; vm_compute; reflexivity|].
  refine (primaryKey_composite_is_ambiguous
            (pairKeyed (SStr "north,7") (SStr "b")) (pairKeyed (SStr "north") (SStr "7,b"))
            "region" "code" "north" "7" "b" eq_refl eq_refl _ _ _ _);
    vm_compute; reflexivity.
Defined.

(** ** The store of instances *)

(** X19: [init] allocates an address that was free, leaves every
    existing instance as it was, and the new instance has neither user
    nor transaction, so that the checks run on it fail with the
    misconfiguration error for every action and change-set until a user
    is bound. *)
Theorem init_allocates_unconfigured_instance (h : heap) (action : scalar)
    (changeSet : list jsval) :
  h !! (exports.init h).1 = None
  ∧ (exports.init h).2 !! (exports.init h).1
    = Some {| user := undefined; transaction := undefined |}
  ∧ (∀ l s, h !! l = Some s → (exports.init h).2 !! l = Some s)
  ∧ validation (AnInstance {| user := undefined; transaction := undefined |})
      action changeSet
    = Throw (DriveError MisConfiguredError "Providing a user is required").
Proof.
  assert (Hfresh : h !! fresh (dom h) = None).
  { apply not_elem_of_dom. apply is_fresh. }
  split; [exact Hfresh|]. split; [apply lookup_insert_eq|]. split; [| reflexivity].
  intros l s Hl. cbn. rewrite lookup_insert_ne; [done|]. intros <-. congruence.
Qed.

Lemma init_allocates_unconfigured_instance_witness :
  ({[ 0%nat := loggedIn ]} : heap) !! 0%nat = Some loggedIn
  ∧ (exports.init {[ 0%nat := loggedIn ]}).2 !! 0%nat = Some loggedIn.
Proof.
  split; [reflexivity|].
  exact (proj1 (proj2 (proj2 (init_allocates_unconfigured_instance {[ 0%nat := loggedIn ]}
                                SUndefined [])))
           0%nat loggedIn eq_refl).
Defined.

(** X20: binding again overwrites: of two [withUser] calls on the same
    instance only the last counts, and likewise for [withTransaction];
    neither call ever adds or removes an instance. *)
Theorem rebinding_overwrites (h : heap) (this : loc) (u1 u2 : bound DashboardUser)
    (t1 t2 : bound Transaction) :
  withUser this u2 (withUser this u1 h).2 = withUser this u2 h
  ∧ withTransaction this t2 (withTransaction this t1 h).2 = withTransaction this t2 h
  ∧ dom (withUser this u1 h).2 = dom h
  ∧ dom (withTransaction this t1 h).2 = dom h.
Proof.
  unfold withUser, withTransaction. cbn.
  split; [| split; [| split; apply dom_alter_L]].
  - f_equal. rewrite alter_alter_eq. apply alter_ext. by intros [u t].
  - f_equal. rewrite alter_alter_eq. apply alter_ext. by intros [u t].
Qed.

(** ** What the update closure saves *)

Lemma filterChanged_kept (changeSet : list jsval) (kept : list Model) :
  filterChanged changeSet = Ok kept → ∀ m, m ∈ kept → JModel m ∈ changeSet.
Proof.
  revert kept. induction changeSet as [|v rest IH]; intros kept.
  - intros [= <-] m Hm. by apply elem_of_nil in Hm.
  - destruct v as [x|o|m0]; cbn; [discriminate | discriminate |].
    destruct (filterChanged rest) as [kept'|e]; cbn; [| discriminate].
    intros [= <-] m Hm.
    destruct (changed m0).
    + apply elem_of_cons in Hm as [->|Hm]; [by left|]. right. by apply (IH kept').
    + right. by apply (IH kept').
Qed.

Lemma reduce_updates_saves (env : imports) (uuidString : N) (changedBy : scalar)
    (records : list Model) (acc : list pitem) (w : world) :
  ∃ saved : list Model,
    trace (reduceM (modelUpdateReducer env uuidString changedBy) acc records w).1
    = trace w ++ (EvSave <$> saved)
    ∧ ∀ m, m ∈ saved → m ∈ records ∧ changed m = Some [].
Proof.
  revert acc w. induction records as [|m0 rest IH]; intros acc w.
  - exists []. split; [by rewrite app_nil_r|]. intros m Hm. by apply elem_of_nil in Hm.
  - cbn. unfold mbind, M_bind, bind. rewrite modelUpdateReducer_run.
    destruct (changed m0) as [[|f fields]|] eqn:Hm0.
    + destruct (IH (acc ++ [PPromise (saveOutcome m0)])
                  {| trace := trace w ++ [EvSave m0]; minted := minted w |})
        as (saved & -> & Hsaved).
      exists (m0 :: saved). split; [cbn; by rewrite <- app_assoc|].
      intros m Hm. apply elem_of_cons in Hm as [->|Hm]; [split; [by left | done]|].
      destruct (Hsaved m Hm) as [Hin Hclean]. split; [by right | done].
    + exists []. split; [by rewrite app_nil_r|]. intros m Hm. by apply elem_of_nil in Hm.
    + exists []. split; [by rewrite app_nil_r|]. intros m Hm. by apply elem_of_nil in Hm.
Qed.

(** X21: the update closure never saves a record that reports dirty
    fields.  Everything it adds to the trace is the save of a member of
    the change-set whose [changed()] is the empty array; for a record
    with at least one dirty field the audit literal raises before
    [model.save()] is reached. *)
Theorem update_saves_only_clean_lists (env : imports) (changeSet : list jsval)
    (changedBy : scalar) (promises : list pitem) (w : world) :
  ∃ saved : list Model,
    trace (updateChangeSetExecutable env changeSet changedBy promises w).1
    = trace w ++ (EvSave <$> saved)
    ∧ ∀ m, m ∈ saved → JModel m ∈ changeSet ∧ changed m = Some [].
Proof.
  unfold updateChangeSetExecutable, uuid.
  unfold mbind, M_bind, bind, lift. cbn.
  destruct (filterChanged changeSet) as [records|e] eqn:Hfilter.
  - destruct (reduce_updates_saves env (uuidv4 env (minted w)) changedBy records []
                {| trace := trace w; minted := S (minted w) |}) as (saved & Htrace & Hsaved).
    exists saved. split.
    + destruct (reduceM _ _ _ _) as [w' [updates|e]]; exact Htrace.
    + intros m Hm. destruct (Hsaved m Hm) as [Hin Hclean].
      split; [by apply (filterChanged_kept _ _ Hfilter) | done].
  - exists []. split; [by rewrite app_nil_r|]. intros m Hm. by apply elem_of_nil in Hm.
Qed.

(** ** Records without a key value *)

(** X22: a key attribute that holds no value contributes the empty
    string: a record with no key attribute, and a record whose single
    key attribute is missing, [undefined] or [null] (a row not yet
    inserted, say), are all recorded under the empty [primaryKey]. *)
Theorem primaryKey_without_value_is_empty (m : Model) (a : string) :
  (primaryKeyAttributes m = [] → getPrimaryKeyForModel m = "")
  ∧ (primaryKeyAttributes m = [a] →
     dataValues m !! a = None ∨ dataValues m !! a = Some SUndefined
     ∨ dataValues m !! a = Some SNull →
     getPrimaryKeyForModel m = "").
Proof.
  split.
  - unfold getPrimaryKeyForModel. by intros ->.
  - intros Hkey Hvalue. rewrite (getPrimaryKeyForModel_single _ _ Hkey). unfold get.
    by destruct Hvalue as [->|[->| ->]].
Qed.

Lemma primaryKey_without_value_is_empty_witness :
  (primaryKeyAttributes (rekeyModel ["uuid"] createdFee) = ["uuid"]
   ∧ (dataValues (rekeyModel ["uuid"] createdFee) !! "uuid" = None
      ∨ dataValues (rekeyModel ["uuid"] createdFee) !! "uuid" = Some SUndefined
      ∨ dataValues (rekeyModel ["uuid"] createdFee) !! "uuid" = Some SNull))
  ∧ getPrimaryKeyForModel (rekeyModel ["uuid"] createdFee) = "".
Proof.
  assert (Hvalue : dataValues (rekeyModel ["uuid"] createdFee) !! "uuid" = None
                   ∨ dataValues (rekeyModel ["uuid"] createdFee) !! "uuid" = Some SUndefined
                   ∨ dataValues (rekeyModel ["uuid"] createdFee) !! "uuid" = Some SNull).
  { left. vm_compute. reflexivity. }
  split; [exact (conj eq_refl Hvalue)|].
  exact (proj2 (primaryKey_without_value_is_empty (rekeyModel ["uuid"] createdFee) "uuid")
           eq_refl Hvalue).
Defined.

(** ** Users that are not objects *)

(** X23: the actor check looks only at truthiness.  With a truthy
    primitive bound as the user (a name, a number), a change-set of
    model instances passes [verifyArguments] on the instance, and the
    update closure is planned with [undefined] as the actor id, since a
    primitive has no [id]. *)
Theorem primitive_user_passes_actor_check (env : imports) (prim : scalar)
    (t : bound Transaction) (records : list Model) :
  truthy prim = true →
  verifyArguments (AnInstance {| user := BScalar prim; transaction := t |})
    (JModel <$> records) = Ok tt
  ∧ executablesFor env {| user := BScalar prim; transaction := t |} (SStr "UPDATE")
      (JModel <$> records)
    = Ok (Some (UpdateExecutable (JModel <$> records) SUndefined)).
Proof.
  intros Htruthy. split.
  - unfold verifyArguments, readUser. cbn. rewrite Htruthy. cbn.
    assert (Hall : forallb supportedModel (JModel <$> records) = true).
    { induction records as [|m rest IH]; [done | exact IH]. }
    by rewrite Hall.
  - unfold executablesFor. cbn. by destruct prim.
Qed.

Lemma primitive_user_passes_actor_check_witness :
  truthy (SStr "alex") = true
  ∧ executablesFor sampleImports {| user := BScalar (SStr "alex"); transaction := undefined |}
      (SStr "UPDATE") (JModel <$> [deliverySettings])
    = Ok (Some (UpdateExecutable (JModel <$> [deliverySettings]) SUndefined)).
Proof.
  split; [reflexivity|].
  exact (proj2 (primitive_user_passes_actor_check sampleImports (SStr "alex") undefined
                  [deliverySettings] eq_refl)).
Defined.
